(** * django-carton: the session cart of [carton/cart.py]

    A shallow embedding of the classes [CartItem] and [Cart] and the
    properties of the cart's synchronisation with the session store.

    Python objects are mutated in place and exceptions leave earlier
    mutations behind, so methods are computations in a state-and-exception
    monad: a method maps the object to an outcome (a value or a raised
    exception) together with the object as it is at that moment. *)

From Stdlib Require Import ZArith Lia.
From stdpp Require Import gmap strings list fin_maps.

Local Open Scope Z_scope.

(** ** Exceptions and outcomes *)

Inductive exn :=
| ValueError
| TypeError
| AttributeError
| NameError
| IndexError
| DoesNotExist
| MultipleObjectsReturned.

Inductive result (A : Type) :=
| Ok (a : A)
| Raise (e : exn).
Arguments Ok {A} a.
Arguments Raise {A} e.

(** ** The state-and-exception monad *)

Section StateExn.
Context {S : Type}.

Definition M (A : Type) : Type := S -> result A * S.

Definition ret {A} (a : A) : M A := fun s => (Ok a, s).

Definition raise {A} (e : exn) : M A := fun s => (Raise e, s).

Definition bind {A B} (m : M A) (k : A -> M B) : M B :=
  fun s =>
    match m s with
    | (Ok a, s') => k a s'
    | (Raise e, s') => (Raise e, s')
    end.

(** An expression that only reads the state. *)
Definition read {A} (f : S -> result A) : M A := fun s => (f s, s).

(** A value computed without the state, which may raise. *)
Definition lift {A} (r : result A) : M A := fun s => (r, s).

Definition modify (f : S -> S) : M unit := fun s => (Ok tt, f s).

(** [try: m except Exception as e: h e] *)
Definition try_except {A} (m : M A) (h : exn -> M A) : M A :=
  fun s =>
    match m s with
    | (Ok a, s') => (Ok a, s')
    | (Raise e, s') => h e s'
    end.

(** [for x in xs: body x] *)
Fixpoint for_each {A} (xs : list A) (body : A -> M unit) : M unit :=
  match xs with
  | [] => ret tt
  | x :: rest => bind (body x) (fun _ => for_each rest body)
  end.
End StateExn.
Arguments M : clear implicits.

Notation "x <- m ;; k" := (bind m (fun x => k))
  (at level 100, m at next level, right associativity).
Notation "m ;; k" := (bind m (fun _ => k))
  (at level 100, right associativity).

(** ** Python values *)

(** A value passed where a quantity is expected: an [int], or [None]. *)
Inductive pyval :=
| PyInt (z : Z)
| PyNone.

(** The builtin [int(x)]: the identity on an [int], [TypeError] on [None]. *)
Definition int (x : pyval) : result Z :=
  match x with
  | PyInt z => Ok z
  | PyNone => Raise TypeError
  end.

(** The builtin [sum] over integers. *)
Definition sum (l : list Z) : Z := foldr Z.add 0 l.

(** The builtin [sorted] on a list of integers (the result of a sort on
    integers does not depend on the algorithm). *)
Fixpoint insert_sorted (x : Z) (l : list Z) : list Z :=
  match l with
  | [] => [x]
  | y :: rest => if x <=? y then x :: l else y :: insert_sorted x rest
  end.

Definition sorted (l : list Z) : list Z := foldr insert_sorted [] l.

(** [l[i]] and [del l[i]] address a list by a Python index: a negative
    index counts from the end, and an index outside [-len, len) raises
    [IndexError]. *)
Definition list_index {A} (l : list A) (i : Z) : result nat :=
  let n := Z.of_nat (length l) in
  if (0 <=? i) && (i <? n) then Ok (Z.to_nat i)
  else if (- n <=? i) && (i <? 0) then Ok (Z.to_nat (n + i))
  else Raise IndexError.

(** ** The external entities: products and options

    Modelled from the spec: the product and option models are supplied by
    the host application ([module_loading.get_product_model]); the cart uses
    their unique key [pk] and their numeric [price]. *)

Module Product.
Record t := mk { pk : Z; price : Z }.
End Product.

Module Option.
Record t := mk { pk : Z; price : Z }.
End Option.

(** ** Serialized records

    The session value is a sequence of records with the entries
    [product_pk], [option_pks] and [quantity].  The cart reads an entry of
    a record both as an attribute ([item.product_pk]) and by subscript
    ([item['quantity']]), so a record carries the kind of object it is:
    a plain [dict] (what [to_dict] builds and what a session backend
    returns) supports the subscript only, and attribute access on it raises
    [AttributeError]; a mapping that also exposes its entries as attributes
    supports both. *)

Inductive record_kind :=
| PlainDict
| AttrDict.

Module Rec.
Record t := mk {
  kind : record_kind;
  product_pk : Z;
  option_pks : list Z;
  quantity : pyval
}.

(** [r.name] *)
Definition getattr {A} (r : t) (entry : t -> A) : result A :=
  match kind r with
  | PlainDict => Raise AttributeError
  | AttrDict => Ok (entry r)
  end.

(** [r['name']] *)
Definition getitem {A} (r : t) (entry : t -> A) : result A := Ok (entry r).
End Rec.

(** ** CartItem *)

Module CartItem.
Record t := mk {
  product : Product.t;
  options : list Option.t;
  quantity : Z
}.

Definition __init__ (product : Product.t) (options : list Option.t)
    (quantity : pyval) : result t :=
  match int quantity with
  | Ok q => Ok (mk product options q)
  | Raise e => Raise e
  end.

Definition to_dict (self : t) : Rec.t :=
  Rec.mk PlainDict
         (Product.pk (product self))
         (map Option.pk (options self))
         (PyInt (quantity self)).

Definition subtotal (self : t) : Z :=
  (Product.price (product self) + sum (map Option.price (options self)))
  * quantity self.

Definition set_quantity (q : Z) (self : t) : t :=
  mk (product self) (options self) q.
End CartItem.

(** ** The session store: a mapping from keys to stored values, with the
    [modified] flag. *)

Module Session.
Record t := mk {
  data : gmap string (list Rec.t);
  modified : bool
}.

Definition setitem (key : string) (v : list Rec.t) (s : t) : t :=
  mk (<[key := v]> (data s)) (modified s).

Definition set_modified (b : bool) (s : t) : t := mk (data s) b.
End Session.

(** ** Configuration and the persistence layer

    [carton_settings.CART_SESSION_KEY] and the Django settings
    [CART_PRODUCT_LOOKUP] and [CART_OPTION_LOOKUP] are taken as parameters;
    a lookup is the predicate that [queryset.filter] applies for the
    configured lookup parameters.  The tables hold the rows of the product
    and option models. *)

Record Settings := {
  CART_SESSION_KEY : string;
  CART_PRODUCT_LOOKUP : option (Product.t -> bool);
  CART_OPTION_LOOKUP : option (Option.t -> bool)
}.

Record Database := {
  product_table : list Product.t;
  option_table : list Option.t
}.

(** [queryset.get(pk=k)] *)
Definition queryset_get {A} (pk_of : A -> Z) (queryset : list A) (k : Z)
    : result A :=
  match List.filter (fun x => pk_of x =? k) queryset with
  | [] => Raise DoesNotExist
  | [x] => Ok x
  | _ => Raise MultipleObjectsReturned
  end.

(** ** Cart *)

(** Module-level names of [cart.py] that are bound to a list of options.
    The module binds [Decimal], [settings], [module_loading],
    [carton_settings], [CartItem] and [Cart] only, so there is none; a name
    that is neither a parameter nor a local of a method is looked up here. *)
Definition module_globals : gmap string (list Option.t) := ∅.

(** Reading a free name in a namespace. *)
Definition load_name {S} (globals : gmap string (list Option.t))
    (name : string) : M S (list Option.t) :=
  match globals !! name with
  | Some v => ret v
  | None => raise NameError
  end.

Module Cart.
Record t := mk {
  _items_dict : list CartItem.t;
  session : Session.t;
  session_key : string
}.

Definition set_items (l : list CartItem.t) (self : t) : t :=
  mk l (session self) (session_key self).

Definition set_session (s : Session.t) (self : t) : t :=
  mk (_items_dict self) s (session_key self).

(** *** Properties *)

Definition items (self : t) : list CartItem.t := _items_dict self.

Definition cart_serializable (self : t) : list Rec.t :=
  map CartItem.to_dict (items self).

Definition count (self : t) : Z := sum (map CartItem.quantity (items self)).

Definition unique_count (self : t) : Z := Z.of_nat (length (_items_dict self)).

Definition is_empty (self : t) : bool := unique_count self =? 0.

Definition total (self : t) : Z := sum (map CartItem.subtotal (items self)).

(** *** Querysets *)

Definition filter_products (st : Settings) (queryset : list Product.t)
    : list Product.t :=
  match CART_PRODUCT_LOOKUP st with
  | Some lookup_parameters => List.filter lookup_parameters queryset
  | None => queryset
  end.

Definition filter_options (st : Settings) (queryset : list Option.t)
    : list Option.t :=
  match CART_OPTION_LOOKUP st with
  | Some lookup_parameters => List.filter lookup_parameters queryset
  | None => queryset
  end.

Definition get_product_queryset (st : Settings) (db : Database)
    : list Product.t :=
  filter_products st (product_table db).

Definition get_option_queryset (st : Settings) (db : Database)
    : list Option.t :=
  filter_options st (option_table db).

(** *** Construction

    The locals of [__init__] while it rebuilds the cart: the object under
    construction, the two caches, and what [print] has written. *)

Record frame := mk_frame {
  self_of : t;
  products_cache : gmap Z Product.t;
  options_cache : gmap Z Option.t;
  stdout : list exn
}.

Definition cache_product (k : Z) (p : Product.t) (f : frame) : frame :=
  mk_frame (self_of f) (<[k := p]> (products_cache f)) (options_cache f)
           (stdout f).

Definition cache_option (k : Z) (o : Option.t) (f : frame) : frame :=
  mk_frame (self_of f) (products_cache f) (<[k := o]> (options_cache f))
           (stdout f).

Definition append_item (it : CartItem.t) (f : frame) : frame :=
  mk_frame (set_items (_items_dict (self_of f) ++ [it]) (self_of f))
           (products_cache f) (options_cache f) (stdout f).

Definition print (e : exn) (f : frame) : frame :=
  mk_frame (self_of f) (products_cache f) (options_cache f)
           (stdout f ++ [e]).

(** [for option_pk in item.option_pks: ...], with the list [options]
    built so far. *)
Fixpoint resolve_options (st : Settings) (db : Database)
    (option_pks : list Z) (options : list Option.t)
    : M frame (list Option.t) :=
  match option_pks with
  | [] => ret options
  | option_pk :: rest =>
      cache <- read (fun f => Ok (options_cache f)) ;;
      match cache !! option_pk with
      | Some option => resolve_options st db rest (options ++ [option])
      | None =>
          option <- lift (queryset_get Option.pk (get_option_queryset st db)
                                       option_pk) ;;
          modify (cache_option option_pk option) ;;
          resolve_options st db rest (options ++ [option])
      end
  end.

Definition resolve_product (st : Settings) (db : Database) (product_pk : Z)
    : M frame Product.t :=
  cache <- read (fun f => Ok (products_cache f)) ;;
  match cache !! product_pk with
  | Some product => ret product
  | None =>
      product <- lift (queryset_get Product.pk (get_product_queryset st db)
                                    product_pk) ;;
      modify (cache_product product_pk product) ;;
      ret product
  end.

(** The body of [for item in cart_representation]. *)
Definition rebuild_item (st : Settings) (db : Database) (item : Rec.t)
    : M frame unit :=
  try_except
    (product_pk <- lift (Rec.getattr item Rec.product_pk) ;;
     product <- resolve_product st db product_pk ;;
     option_pks <- lift (Rec.getattr item Rec.option_pks) ;;
     options <- resolve_options st db option_pks [] ;;
     quantity <- lift (Rec.getitem item Rec.quantity) ;;
     cart_item <- lift (CartItem.__init__ product options quantity) ;;
     modify (append_item cart_item))
    (fun e => modify (print e)).

(** [session_key or carton_settings.CART_SESSION_KEY] *)
Definition resolve_session_key (st : Settings) (session_key : option string)
    : string :=
  match session_key with
  | Some k => if String.eqb k "" then CART_SESSION_KEY st else k
  | None => CART_SESSION_KEY st
  end.

Definition rebuild (st : Settings) (db : Database) (session : Session.t)
    (session_key : option string) : result unit * frame :=
  let self := mk [] session (resolve_session_key st session_key) in
  let f := mk_frame self ∅ ∅ [] in
  match Session.data session !! Cart.session_key self with
  | Some cart_representation =>
      for_each cart_representation (rebuild_item st db) f
  | None => (Ok tt, f)
  end.

Definition __init__ (st : Settings) (db : Database) (session : Session.t)
    (session_key : option string) : result t :=
  match rebuild st db session session_key with
  | (Ok _, f) => Ok (self_of f)
  | (Raise e, _) => Raise e
  end.

(** *** Identity lookup *)

(** [for i in range(len(cart_items)): ...], over the indices still to
    visit. *)
Fixpoint index_for (range : list nat) (cart_items : list Rec.t)
    (product : Product.t) (options : list Option.t) : M t Z :=
  match range with
  | [] => ret (-1)
  | i :: rest =>
      entry <- lift (match cart_items !! i with
                     | Some entry => Ok entry
                     | None => Raise IndexError
                     end) ;;
      product_pk <- lift (Rec.getattr entry Rec.product_pk) ;;
      if product_pk =? Product.pk product then
        option_pks <- lift (Rec.getattr entry Rec.option_pks) ;;
        if bool_decide (sorted option_pks = sorted (map Option.pk options))
        then ret (Z.of_nat i)
        else index_for rest cart_items product options
      else index_for rest cart_items product options
  end.

Definition __index__ (product : Product.t) (options : list Option.t)
    : M t Z :=
  cart_items <- read (fun self => Ok (cart_serializable self)) ;;
  index_for (seq 0 (length cart_items)) cart_items product options.

Definition __contains__ (product : Product.t) (options : list Option.t)
    : M t bool :=
  i <- __index__ product options ;;
  ret (negb (i =? -1)).

(** *** Persistence *)

Definition update_session : M t unit :=
  value <- read (fun self => Ok (cart_serializable self)) ;;
  modify (fun self =>
            set_session (Session.setitem (session_key self) value
                                         (session self)) self) ;;
  modify (fun self =>
            set_session (Session.set_modified true (session self)) self).

(** *** List cells of [_items_dict] *)

(** [self._items_dict[item_index]] *)
Definition getitem (item_index : Z) : M t CartItem.t :=
  fun self =>
    match list_index (_items_dict self) item_index with
    | Raise e => (Raise e, self)
    | Ok n =>
        match _items_dict self !! n with
        | Some it => (Ok it, self)
        | None => (Raise IndexError, self)
        end
    end.

(** [self._items_dict[item_index].quantity = q]: the item is an object
    held by the list, so the assignment shows in that cell. *)
Definition setattr_quantity (item_index : Z) (q : Z) : M t unit :=
  fun self =>
    match list_index (_items_dict self) item_index with
    | Raise e => (Raise e, self)
    | Ok n =>
        (Ok tt,
         set_items (alter (CartItem.set_quantity q) n (_items_dict self))
                   self)
    end.

(** [del self._items_dict[item_index]] *)
Definition delitem (item_index : Z) : M t unit :=
  fun self =>
    match list_index (_items_dict self) item_index with
    | Raise e => (Raise e, self)
    | Ok n => (Ok tt, set_items (delete n (_items_dict self)) self)
    end.

Definition append (it : CartItem.t) (self : t) : t :=
  set_items (_items_dict self ++ [it]) self.

(** *** Mutations

    Python finds [self.__index__] on the object and the free name [options]
    in the module namespace at the moment of the call: a subclass may
    override [__index__], and the namespace may come to bind [options].
    The body of each mutation therefore takes the lookup and the namespace
    as parameters; the method is its body at [__index__] and
    [module_globals]. *)

Section Bodies.
Variable index : Product.t -> list Option.t -> M t Z.
Variable globals : gmap string (list Option.t).

Definition add_body (product : Product.t) (options : list Option.t)
    (quantity : pyval) : M t unit :=
  quantity <- lift (int quantity) ;;
  if quantity <? 1 then raise ValueError
  else
    item_index <- index product options ;;
    (if negb (item_index =? -1) then
       it <- getitem item_index ;;
       setattr_quantity item_index (CartItem.quantity it + quantity)
     else
       it <- lift (CartItem.__init__ product options (PyInt quantity)) ;;
       modify (append it)) ;;
    update_session.

Definition remove_body (product : Product.t) : M t unit :=
  options <- load_name globals "options" ;;
  item_index <- index product options ;;
  if negb (item_index =? -1) then
    delitem item_index ;;
    update_session
  else ret tt.

Definition remove_single_body (product : Product.t) : M t unit :=
  options <- load_name globals "options" ;;
  item_index <- index product options ;;
  if negb (item_index =? -1) then
    it <- getitem item_index ;;
    (if CartItem.quantity it <=? 1 then delitem item_index
     else setattr_quantity item_index (CartItem.quantity it - 1)) ;;
    update_session
  else ret tt.

Definition set_quantity_body (product : Product.t) (quantity : pyval)
    (options : list Option.t) : M t unit :=
  quantity <- lift (int quantity) ;;
  if quantity <? 0 then raise ValueError
  else
    item_index <- index product options ;;
    if negb (item_index =? -1) then
      setattr_quantity item_index quantity ;;
      it <- getitem item_index ;;
      (if CartItem.quantity it <? 1 then delitem item_index else ret tt) ;;
      update_session
    else ret tt.
End Bodies.

Definition add (product : Product.t) (options : list Option.t)
    (quantity : pyval) : M t unit :=
  add_body __index__ product options quantity.

Definition remove (product : Product.t) : M t unit :=
  remove_body __index__ module_globals product.

Definition remove_single (product : Product.t) : M t unit :=
  remove_single_body __index__ module_globals product.

Definition clear : M t unit :=
  modify (set_items []) ;;
  update_session.

Definition set_quantity (product : Product.t) (quantity : pyval)
    (options : list Option.t) : M t unit :=
  set_quantity_body __index__ product quantity options.
End Cart.

(** ** Operations as data, and the states a cart can reach *)

Inductive op :=
| Add (product : Product.t) (options : list Option.t) (quantity : pyval)
| Remove (product : Product.t)
| RemoveSingle (product : Product.t)
| Clear
| SetQuantity (product : Product.t) (quantity : pyval)
              (options : list Option.t).

Definition run (o : op) : M Cart.t unit :=
  match o with
  | Add product options quantity => Cart.add product options quantity
  | Remove product => Cart.remove product
  | RemoveSingle product => Cart.remove_single product
  | Clear => Cart.clear
  | SetQuantity product quantity options =>
      Cart.set_quantity product quantity options
  end.

(** [reachable c0 c]: [c] is [c0] after a sequence of operations that all
    completed without raising. *)
Inductive reachable (c0 : Cart.t) : Cart.t -> Prop :=
| reach_start : reachable c0 c0
| reach_step (c c' : Cart.t) (o : op) :
    reachable c0 c -> run o c = (Ok tt, c') -> reachable c0 c'.

(** The session mirrors the item list and is flagged modified. *)
Definition persisted (c : Cart.t) : Prop :=
  Session.data (Cart.session c) !! Cart.session_key c
    = Some (Cart.cart_serializable c)
  /\ Session.modified (Cart.session c) = true.

(** The cart as [update_session] leaves it. *)
Definition written (c : Cart.t) : Cart.t :=
  Cart.set_session
    (Session.mk (<[Cart.session_key c := Cart.cart_serializable c]>
                   (Session.data (Cart.session c)))
                true)
    c.

(** The identity lookup for [(product, options)] returns the sentinel. *)
Definition finds_nothing (product : Product.t) (options : list Option.t)
    (c : Cart.t) : Prop :=
  fst (Cart.__index__ product options c) = Ok (-1).

(** The calls that return without writing: [remove] and [set_quantity]
    when their lookup finds nothing. *)
Definition skips_write (o : op) (c : Cart.t) : Prop :=
  match o with
  | Remove product =>
      exists options,
        module_globals !! "options" = Some options
        /\ finds_nothing product options c
  | SetQuantity product _ options => finds_nothing product options c
  | _ => False
  end.

Definition quantities_positive (l : list CartItem.t) : Prop :=
  Forall (fun it => 1 <= CartItem.quantity it) l.

(** Every record stored under the cart's key that carries an integer
    quantity carries one that is at least 1. *)
Definition stored_quantities_positive (st : Settings) (s : Session.t)
    (session_key : option string) : Prop :=
  forall recs,
    Session.data s !! Cart.resolve_session_key st session_key = Some recs ->
    Forall (fun r => forall z, Rec.quantity r = PyInt z -> 1 <= z) recs.

(** Every record stored under the cart's key is a plain dict: what
    [to_dict] writes, and what a session backend hands back. *)
Definition stored_records_plain (st : Settings) (s : Session.t)
    (session_key : option string) : Prop :=
  forall recs,
    Session.data s !! Cart.resolve_session_key st session_key = Some recs ->
    Forall (fun r => Rec.kind r = PlainDict) recs.

(** ** A shop used in the examples *)

Module Shop.
Definition productA : Product.t := Product.mk 1 10.
Definition optionX : Option.t := Option.mk 7 2.

Definition settings : Settings :=
  {| CART_SESSION_KEY := "CART";
     CART_PRODUCT_LOOKUP := None;
     CART_OPTION_LOOKUP := None |}.

Definition db : Database :=
  {| product_table := [productA]; option_table := [optionX] |}.

Definition empty_session : Session.t := Session.mk ∅ false.

(** [Cart(session)] over the empty session. *)
Definition cart0 : Cart.t := Cart.mk [] empty_session "CART".

(** [cart0] after [add(productA, [], 2)]. *)
Definition cart1 : Cart.t :=
  Cart.mk [CartItem.mk productA [] 2]
          (Session.mk {[ "CART" := [Rec.mk PlainDict 1 [] (PyInt 2)] ]} true)
          "CART".

(** A session holding a record for [productA] and one for a product that
    is not in the table, both as plain dicts. *)
Definition stale_session : Session.t :=
  Session.mk {[ "CART" := [Rec.mk PlainDict 1 [] (PyInt 2);
                           Rec.mk PlainDict 99 [] (PyInt 1)] ]} false.

(** [Cart(stale_session)]. *)
Definition stale_cart : Cart.t := Cart.mk [] stale_session "CART".

(** [stale_cart] after [add(productA, [optionX], 3)]. *)
Definition refilled_cart : Cart.t :=
  Cart.mk [CartItem.mk productA [optionX] 3]
          (Session.mk {[ "CART" := [Rec.mk PlainDict 1 [7] (PyInt 3)] ]} true)
          "CART".
End Shop.

(** ** Resolution without the caches

    The reference against which the cached rebuild of [__init__] is
    compared: every key of a record is fetched from the querysets anew. *)

(** [queryset.get] for each key in turn, up to the first one that fails. *)
Fixpoint get_all {A} (pk_of : A -> Z) (queryset : list A) (pks : list Z)
    : result (list A) :=
  match pks with
  | [] => Ok []
  | k :: rest =>
      match queryset_get pk_of queryset k with
      | Raise e => Raise e
      | Ok x =>
          match get_all pk_of queryset rest with
          | Raise e => Raise e
          | Ok xs => Ok (x :: xs)
          end
      end
  end.

(** The item a stored record stands for, or the exception that gives the
    record up, in the order in which the body of the loop meets them. *)
Definition resolve_direct (st : Settings) (db : Database) (item : Rec.t)
    : result CartItem.t :=
  match Rec.getattr item Rec.product_pk with
  | Raise e => Raise e
  | Ok product_pk =>
      match queryset_get Product.pk (Cart.get_product_queryset st db)
                         product_pk with
      | Raise e => Raise e
      | Ok product =>
          match Rec.getattr item Rec.option_pks with
          | Raise e => Raise e
          | Ok option_pks =>
              match get_all Option.pk (Cart.get_option_queryset st db)
                            option_pks with
              | Raise e => Raise e
              | Ok options =>
                  CartItem.__init__ product options (Rec.quantity item)
              end
          end
      end
  end.

Definition resolves (st : Settings) (db : Database) (item : Rec.t) : bool :=
  match resolve_direct st db item with
  | Ok _ => true
  | Raise _ => false
  end.

(** The items of the records that resolve, in stored order. *)
Definition rebuilt_items (st : Settings) (db : Database) (recs : list Rec.t)
    : list CartItem.t :=
  omap (fun r => match resolve_direct st db r with
                 | Ok it => Some it
                 | Raise _ => None
                 end) recs.

(** The exceptions of the records that do not, in stored order. *)
Definition reported (st : Settings) (db : Database) (recs : list Rec.t)
    : list exn :=
  omap (fun r => match resolve_direct st db r with
                 | Ok _ => None
                 | Raise e => Some e
                 end) recs.

(** The sequence stored under the key a cart would use; empty when the key
    is absent. *)
Definition stored (st : Settings) (s : Session.t)
    (session_key : option string) : list Rec.t :=
  default [] (Session.data s !! Cart.resolve_session_key st session_key).

(** The record with the same entries as a plain dict. *)
Definition as_plain (r : Rec.t) : Rec.t :=
  Rec.mk PlainDict (Rec.product_pk r) (Rec.option_pks r) (Rec.quantity r).

(** Every cached entity is the one its queryset returns for the key. *)
Definition coherent (st : Settings) (db : Database) (f : Cart.frame) : Prop :=
  (forall k p,
     Cart.products_cache f !! k = Some p ->
     queryset_get Product.pk (Cart.get_product_queryset st db) k = Ok p)
  /\ (forall k o,
        Cart.options_cache f !! k = Some o ->
        queryset_get Option.pk (Cart.get_option_queryset st db) k = Ok o).

(** Prices and quantity of an item are not negative. *)
Definition item_nonnegative (it : CartItem.t) : Prop :=
  0 <= Product.price (CartItem.product it)
  /\ Forall (fun o => 0 <= Option.price o) (CartItem.options it)
  /\ 0 <= CartItem.quantity it.

(** ** A second shop, whose settings restrict the products *)

Module Outlet.
Definition cheap : Product.t := Product.mk 1 4.
Definition dear : Product.t := Product.mk 2 40.
Definition gift_wrap : Option.t := Option.mk 7 2.
Definition engraving : Option.t := Option.mk 8 5.

(** Only products priced above 5 can be looked up. *)
Definition settings : Settings :=
  {| CART_SESSION_KEY := "CART";
     CART_PRODUCT_LOOKUP := Some (fun p => 5 <? Product.price p);
     CART_OPTION_LOOKUP := None |}.

Definition db : Database :=
  {| product_table := [cheap; dear];
     option_table := [gift_wrap; engraving] |}.

(** Four records that expose their entries as attributes: the excluded
    product, the admitted product twice (with the options in two orders)
    and the admitted product with an option that does not exist. *)
Definition session : Session.t :=
  Session.mk {[ "CART" := [Rec.mk AttrDict 1 [] (PyInt 1);
                           Rec.mk AttrDict 2 [7; 8] (PyInt 2);
                           Rec.mk AttrDict 2 [8; 7] (PyInt 1);
                           Rec.mk AttrDict 2 [9] (PyInt 1)];
               "other" := [] ]} false.

Definition first_item : CartItem.t :=
  CartItem.mk dear [gift_wrap; engraving] 2.

Definition second_item : CartItem.t :=
  CartItem.mk dear [engraving; gift_wrap] 1.

(** [Cart(session)]. *)
Definition cart : Cart.t :=
  Cart.mk [first_item; second_item] session "CART".
End Outlet.

(** ** The mutations under another lookup or namespace *)

Module Dispatch.
Section Bound.
Variable index : Product.t -> list Option.t -> M Cart.t Z.
Variable globals : gmap string (list Option.t).

Definition run (o : op) : M Cart.t unit :=
  match o with
  | Add product options quantity =>
      Cart.add_body index product options quantity
  | Remove product => Cart.remove_body index globals product
  | RemoveSingle product => Cart.remove_single_body index globals product
  | Clear => Cart.clear
  | SetQuantity product quantity options =>
      Cart.set_quantity_body index product quantity options
  end.

(** The calls whose lookup returns the sentinel: [remove], [remove_single]
    and [set_quantity] then return at once. *)
Definition skips_write (o : op) (c : Cart.t) : Prop :=
  match o with
  | Remove product | RemoveSingle product =>
      exists options,
        globals !! "options" = Some options
        /\ fst (index product options c) = Ok (-1)
  | SetQuantity product _ options => fst (index product options c) = Ok (-1)
  | _ => False
  end.
End Bound.

(** The lookup leaves the cart as it found it. *)
Definition read_only (index : Product.t -> list Option.t -> M Cart.t Z)
    : Prop :=
  forall product options c, snd (index product options c) = c.
End Dispatch.

(** A lookup as a subclass can define it: the loop of [__index__] with the
    entries of the serialized items read by subscript. *)
Module Override.
Fixpoint index_for (range : list nat) (cart_items : list Rec.t)
    (product : Product.t) (options : list Option.t) : M Cart.t Z :=
  match range with
  | [] => ret (-1)
  | i :: rest =>
      entry <- lift (match cart_items !! i with
                     | Some entry => Ok entry
                     | None => Raise IndexError
                     end) ;;
      product_pk <- lift (Rec.getitem entry Rec.product_pk) ;;
      if product_pk =? Product.pk product then
        option_pks <- lift (Rec.getitem entry Rec.option_pks) ;;
        if bool_decide (sorted option_pks = sorted (map Option.pk options))
        then ret (Z.of_nat i)
        else index_for rest cart_items product options
      else index_for rest cart_items product options
  end.

Definition __index__ (product : Product.t) (options : list Option.t)
    : M Cart.t Z :=
  cart_items <- read (fun self => Ok (Cart.cart_serializable self)) ;;
  index_for (seq 0 (length cart_items)) cart_items product options.

(** A namespace in which [options] is bound to the empty list. *)
Definition globals : gmap string (list Option.t) := {[ "options" := [] ]}.
End Override.

(** ** Arguments that are not entities

    Python checks no type at a call: [add] can be handed, as product or as
    an option, any object, for instance the key of an option in place of the
    option, and as [options] a value that is no list at all.  Such an object
    has no attribute [pk], and [to_dict] reads [self.product.pk] and [i.pk]
    of every option.  [DynItem] and [Dyn] are the item and the cart over
    such arguments: the same methods, with [to_dict], [cart_serializable],
    [__index__] and [update_session] raising where the source does.  On
    entities they are the item and the cart of [Cart] (lemma
    [dyn_simulates]). *)

Inductive pyobject (A : Type) :=
| Entity (a : A)
| Opaque.
Arguments Entity {A} a.
Arguments Opaque {A}.

(** The value passed as [options]: a list, or something that cannot be
    iterated, such as [None]. *)
Inductive pyoptions :=
| Options (l : list (pyobject Option.t))
| NotIterable.

(** [x.pk] *)
Definition getattr_pk {A} (pk_of : A -> Z) (x : pyobject A) : result Z :=
  match x with
  | Entity a => Ok (pk_of a)
  | Opaque => Raise AttributeError
  end.

(** A list comprehension [[f x for x in l]]: left to right, up to the first
    element on which [f] raises. *)
Fixpoint traverse {A B} (f : A -> result B) (l : list A) : result (list B) :=
  match l with
  | [] => Ok []
  | x :: rest =>
      match f x with
      | Raise e => Raise e
      | Ok y =>
          match traverse f rest with
          | Raise e => Raise e
          | Ok ys => Ok (y :: ys)
          end
      end
  end.

(** [[i.pk for i in options]] *)
Definition option_pks_of (options : pyoptions) : result (list Z) :=
  match options with
  | Options l => traverse (getattr_pk Option.pk) l
  | NotIterable => Raise TypeError
  end.

Module DynItem.
Record t := mk {
  product : pyobject Product.t;
  options : pyoptions;
  quantity : Z
}.

Definition __init__ (product : pyobject Product.t) (options : pyoptions)
    (quantity : pyval) : result t :=
  match int quantity with
  | Ok q => Ok (mk product options q)
  | Raise e => Raise e
  end.

(** The entries of the dict are evaluated in the order written:
    [self.product.pk], then the comprehension over [self.options]. *)
Definition to_dict (self : t) : result Rec.t :=
  match getattr_pk Product.pk (product self) with
  | Raise e => Raise e
  | Ok product_pk =>
      match option_pks_of (options self) with
      | Raise e => Raise e
      | Ok option_pks =>
          Ok (Rec.mk PlainDict product_pk option_pks (PyInt (quantity self)))
      end
  end.

Definition set_quantity (q : Z) (self : t) : t :=
  mk (product self) (options self) q.
End DynItem.

Module Dyn.
Record t := mk {
  _items_dict : list DynItem.t;
  session : Session.t;
  session_key : string
}.

Definition set_items (l : list DynItem.t) (self : t) : t :=
  mk l (session self) (session_key self).

Definition set_session (s : Session.t) (self : t) : t :=
  mk (_items_dict self) s (session_key self).

Definition items (self : t) : list DynItem.t := _items_dict self.

Definition cart_serializable (self : t) : result (list Rec.t) :=
  traverse DynItem.to_dict (items self).

Fixpoint index_for (range : list nat) (cart_items : list Rec.t)
    (product : pyobject Product.t) (options : pyoptions) : M t Z :=
  match range with
  | [] => ret (-1)
  | i :: rest =>
      entry <- lift (match cart_items !! i with
                     | Some entry => Ok entry
                     | None => Raise IndexError
                     end) ;;
      product_pk <- lift (Rec.getattr entry Rec.product_pk) ;;
      pk <- lift (getattr_pk Product.pk product) ;;
      if product_pk =? pk then
        option_pks <- lift (Rec.getattr entry Rec.option_pks) ;;
        pks <- lift (option_pks_of options) ;;
        if bool_decide (sorted option_pks = sorted pks)
        then ret (Z.of_nat i)
        else index_for rest cart_items product options
      else index_for rest cart_items product options
  end.

Definition __index__ (product : pyobject Product.t) (options : pyoptions)
    : M t Z :=
  cart_items <- read cart_serializable ;;
  index_for (seq 0 (length cart_items)) cart_items product options.

(** The serialized value is computed first; when that raises, neither the
    session value nor the flag has been assigned. *)
Definition update_session : M t unit :=
  value <- read cart_serializable ;;
  modify (fun self =>
            set_session (Session.setitem (session_key self) value
                                         (session self)) self) ;;
  modify (fun self =>
            set_session (Session.set_modified true (session self)) self).

Definition getitem (item_index : Z) : M t DynItem.t :=
  fun self =>
    match list_index (_items_dict self) item_index with
    | Raise e => (Raise e, self)
    | Ok n =>
        match _items_dict self !! n with
        | Some it => (Ok it, self)
        | None => (Raise IndexError, self)
        end
    end.

Definition setattr_quantity (item_index : Z) (q : Z) : M t unit :=
  fun self =>
    match list_index (_items_dict self) item_index with
    | Raise e => (Raise e, self)
    | Ok n =>
        (Ok tt,
         set_items (alter (DynItem.set_quantity q) n (_items_dict self)) self)
    end.

Definition delitem (item_index : Z) : M t unit :=
  fun self =>
    match list_index (_items_dict self) item_index with
    | Raise e => (Raise e, self)
    | Ok n => (Ok tt, set_items (delete n (_items_dict self)) self)
    end.

Definition append (it : DynItem.t) (self : t) : t :=
  set_items (_items_dict self ++ [it]) self.

Definition load_options (name : string) : M t pyoptions :=
  match module_globals !! name with
  | Some v => ret (Options (map Entity v))
  | None => raise NameError
  end.

Definition add (product : pyobject Product.t) (options : pyoptions)
    (quantity : pyval) : M t unit :=
  quantity <- lift (int quantity) ;;
  if quantity <? 1 then raise ValueError
  else
    item_index <- __index__ product options ;;
    (if negb (item_index =? -1) then
       it <- getitem item_index ;;
       setattr_quantity item_index (DynItem.quantity it + quantity)
     else
       it <- lift (DynItem.__init__ product options (PyInt quantity)) ;;
       modify (append it)) ;;
    update_session.

Definition remove (product : pyobject Product.t) : M t unit :=
  options <- load_options "options" ;;
  item_index <- __index__ product options ;;
  if negb (item_index =? -1) then
    delitem item_index ;;
    update_session
  else ret tt.

Definition remove_single (product : pyobject Product.t) : M t unit :=
  options <- load_options "options" ;;
  item_index <- __index__ product options ;;
  if negb (item_index =? -1) then
    it <- getitem item_index ;;
    (if DynItem.quantity it <=? 1 then delitem item_index
     else setattr_quantity item_index (DynItem.quantity it - 1)) ;;
    update_session
  else ret tt.

Definition clear : M t unit :=
  modify (set_items []) ;;
  update_session.

Definition set_quantity (product : pyobject Product.t) (quantity : pyval)
    (options : pyoptions) : M t unit :=
  quantity <- lift (int quantity) ;;
  if quantity <? 0 then raise ValueError
  else
    item_index <- __index__ product options ;;
    if negb (item_index =? -1) then
      setattr_quantity item_index quantity ;;
      it <- getitem item_index ;;
      (if DynItem.quantity it <? 1 then delitem item_index else ret tt) ;;
      update_session
    else ret tt.

Inductive call :=
| Add (product : pyobject Product.t) (options : pyoptions)
      (quantity : pyval)
| Remove (product : pyobject Product.t)
| RemoveSingle (product : pyobject Product.t)
| Clear
| SetQuantity (product : pyobject Product.t) (quantity : pyval)
              (options : pyoptions).

Definition run (o : call) : M t unit :=
  match o with
  | Add product options quantity => add product options quantity
  | Remove product => remove product
  | RemoveSingle product => remove_single product
  | Clear => clear
  | SetQuantity product quantity options =>
      set_quantity product quantity options
  end.

End Dyn.

(** The cart of [Cart], its items and its calls, seen in [Dyn]. *)
Module Embed.
Definition of_item (it : CartItem.t) : DynItem.t :=
  DynItem.mk (Entity (CartItem.product it))
             (Options (map Entity (CartItem.options it)))
             (CartItem.quantity it).

Definition of_cart (c : Cart.t) : Dyn.t :=
  Dyn.mk (map of_item (Cart._items_dict c)) (Cart.session c)
         (Cart.session_key c).

Definition of_op (o : op) : Dyn.call :=
  match o with
  | Add product options quantity =>
      Dyn.Add (Entity product) (Options (map Entity options)) quantity
  | Remove product => Dyn.Remove (Entity product)
  | RemoveSingle product => Dyn.RemoveSingle (Entity product)
  | Clear => Dyn.Clear
  | SetQuantity product quantity options =>
      Dyn.SetQuantity (Entity product) quantity
                      (Options (map Entity options))
  end.
End Embed.

(** The cart as [Dyn.update_session] leaves it when the value is [v]. *)
Definition dyn_written_with (v : list Rec.t) (c : Dyn.t) : Dyn.t :=
  Dyn.set_session
    (Session.mk (<[Dyn.session_key c := v]> (Session.data (Dyn.session c)))
                true)
    c.

(** The exception of the identity lookup on a cart that holds an item:
    the one [to_dict] raises, or else that of the first read of
    [product_pk]. *)
Definition dyn_lookup_error (c : Dyn.t) : exn :=
  match Dyn.cart_serializable c with
  | Raise e => e
  | Ok _ => AttributeError
  end.

(** The cart of the examples with no item, and the call that passes the key
    7 in place of the option. *)
Module Misuse.
Definition cart0 : Dyn.t := Embed.of_cart Shop.cart0.

Definition bad_item : DynItem.t :=
  DynItem.mk (Entity Shop.productA) (Options [Opaque]) 1.

Definition bad_add : Dyn.call :=
  Dyn.Add (Entity Shop.productA) (Options [Opaque]) (PyInt 1).

Definition cart_after : Dyn.t :=
  Dyn.mk [bad_item] Shop.empty_session "CART".
End Misuse.

(** * Properties *)

(** ** The monad's steps *)

Ltac monad_unfold :=
  unfold bind, ret, raise, lift, read, modify, try_except in *.

(** ** Persistence *)

Lemma update_session_written (c : Cart.t) :
  Cart.update_session c = (Ok tt, written c).
Proof. reflexivity. Qed.

Lemma written_persisted (c : Cart.t) : persisted (written c).
Proof.
  split; [| reflexivity].
  unfold written, Cart.cart_serializable, Cart.items. simpl.
  apply lookup_insert_eq.
Qed.

Lemma written_items (c : Cart.t) : Cart.items (written c) = Cart.items c.
Proof. reflexivity. Qed.

(** ** The identity lookup *)

(** The lookup reads the cart and leaves it as it is. *)
Lemma index_for_state (range : list nat) (cart_items : list Rec.t)
    (product : Product.t) (options : list Option.t) (c : Cart.t) :
  snd (Cart.index_for range cart_items product options c) = c.
Proof.
  induction range as [| i rest IH]; [reflexivity |].
  simpl. monad_unfold.
  destruct (cart_items !! i) as [entry |]; [| reflexivity].
  destruct (Rec.getattr entry Rec.product_pk) as [ppk | e]; [| reflexivity].
  destruct (ppk =? Product.pk product); [| exact IH].
  destruct (Rec.getattr entry Rec.option_pks) as [opks | e]; [| reflexivity].
  case_bool_decide; [reflexivity | exact IH].
Qed.

Lemma index_state (product : Product.t) (options : list Option.t)
    (c : Cart.t) :
  snd (Cart.__index__ product options c) = c.
Proof. unfold Cart.__index__. monad_unfold. apply index_for_state. Qed.

(** On an empty cart the loop body never runs and the sentinel comes back. *)
Lemma index_empty (product : Product.t) (options : list Option.t)
    (c : Cart.t) :
  Cart.items c = [] -> Cart.__index__ product options c = (Ok (-1), c).
Proof.
  intros H. unfold Cart.__index__, Cart.cart_serializable. monad_unfold.
  rewrite H. reflexivity.
Qed.

(** On a cart with an item the first iteration reads [product_pk] as an
    attribute of the dict that [to_dict] built. *)
Lemma index_nonempty (product : Product.t) (options : list Option.t)
    (c : Cart.t) :
  Cart.items c <> [] ->
  Cart.__index__ product options c = (Raise AttributeError, c).
Proof.
  intros H. unfold Cart.__index__, Cart.cart_serializable. monad_unfold.
  destruct (Cart.items c) as [| it rest]; [contradiction | reflexivity].
Qed.

Lemma index_cases (product : Product.t) (options : list Option.t)
    (c : Cart.t) :
  (Cart.items c = [] /\ Cart.__index__ product options c = (Ok (-1), c))
  \/ (Cart.items c <> []
      /\ Cart.__index__ product options c = (Raise AttributeError, c)).
Proof.
  destruct (Cart.items c) as [| it rest] eqn:E.
  - left. split; [reflexivity |]. by apply index_empty.
  - right. split; [discriminate |]. apply index_nonempty. by rewrite E.
Qed.

(** ** What each mutation does *)

Lemma add_unfold (product : Product.t) (options : list Option.t)
    (quantity : pyval) (c : Cart.t) :
  Cart.add product options quantity c =
    match int quantity with
    | Raise e => (Raise e, c)
    | Ok q =>
        if q <? 1 then (Raise ValueError, c)
        else
          match Cart.items c with
          | [] => (Ok tt,
                   written (Cart.append (CartItem.mk product options q) c))
          | _ :: _ => (Raise AttributeError, c)
          end
    end.
Proof.
  unfold Cart.add, Cart.add_body. unfold bind at 1. unfold lift at 1.
  destruct (int quantity) as [q | e]; [| reflexivity].
  destruct (q <? 1); [reflexivity |].
  unfold bind at 1.
  destruct (index_cases product options c) as [[Hi ->] | [Hi ->]].
  - rewrite Hi. reflexivity.
  - destruct (Cart.items c); [contradiction | reflexivity].
Qed.

Lemma remove_unfold (product : Product.t) (c : Cart.t) :
  Cart.remove product c = (Raise NameError, c).
Proof. reflexivity. Qed.

Lemma remove_single_unfold (product : Product.t) (c : Cart.t) :
  Cart.remove_single product c = (Raise NameError, c).
Proof. reflexivity. Qed.

Lemma clear_unfold (c : Cart.t) :
  Cart.clear c = (Ok tt, written (Cart.set_items [] c)).
Proof. reflexivity. Qed.

Lemma set_quantity_unfold (product : Product.t) (quantity : pyval)
    (options : list Option.t) (c : Cart.t) :
  Cart.set_quantity product quantity options c =
    match int quantity with
    | Raise e => (Raise e, c)
    | Ok q =>
        if q <? 0 then (Raise ValueError, c)
        else
          match Cart.items c with
          | [] => (Ok tt, c)
          | _ :: _ => (Raise AttributeError, c)
          end
    end.
Proof.
  unfold Cart.set_quantity, Cart.set_quantity_body. unfold bind at 1.
  unfold lift at 1.
  destruct (int quantity) as [q | e]; [| reflexivity].
  destruct (q <? 0); [reflexivity |].
  unfold bind at 1.
  destruct (index_cases product options c) as [[Hi ->] | [Hi ->]].
  - rewrite Hi. reflexivity.
  - destruct (Cart.items c); [contradiction | reflexivity].
Qed.

(** ** Construction *)

Lemma resolve_product_self (st : Settings) (db : Database) (k : Z)
    (f : Cart.frame) :
  Cart.self_of (snd (Cart.resolve_product st db k f)) = Cart.self_of f.
Proof.
  unfold Cart.resolve_product. monad_unfold. simpl.
  destruct (Cart.products_cache f !! k); [reflexivity |].
  destruct (queryset_get _ _ _); reflexivity.
Qed.

Lemma resolve_options_self (st : Settings) (db : Database)
    (pks : list Z) (acc : list Option.t) (f : Cart.frame) :
  Cart.self_of (snd (Cart.resolve_options st db pks acc f)) = Cart.self_of f.
Proof.
  revert acc f. induction pks as [| k rest IH]; intros acc f; [reflexivity |].
  simpl. monad_unfold. simpl.
  destruct (Cart.options_cache f !! k); [apply IH |].
  destruct (queryset_get _ _ _); [| reflexivity].
  rewrite IH. reflexivity.
Qed.

(** One record either appends one item, whose quantity is the integer the
    record carries, or leaves the item list as it is; in both cases no
    exception leaves the [try] statement. *)
Lemma rebuild_item_effect (st : Settings) (db : Database) (item : Rec.t)
    (f : Cart.frame) :
  exists f',
    Cart.rebuild_item st db item f = (Ok tt, f')
    /\ (Cart.self_of f' = Cart.self_of f
        \/ exists it,
             Cart.self_of f'
               = Cart.set_items (Cart._items_dict (Cart.self_of f) ++ [it])
                                (Cart.self_of f)
             /\ Rec.kind item = AttrDict
             /\ Rec.quantity item = PyInt (CartItem.quantity it)).
Proof.
  unfold Cart.rebuild_item, try_except.
  unfold bind at 1. unfold lift at 1. unfold Rec.getattr at 1.
  destruct (Rec.kind item) eqn:Ek.
  { eexists. split; [reflexivity | by left]. }
  unfold bind at 1.
  pose proof (resolve_product_self st db (Rec.product_pk item) f) as Hp.
  destruct (Cart.resolve_product st db (Rec.product_pk item) f)
    as [[product | e] f1]; simpl in Hp.
  2: { eexists. split; [reflexivity | by left]. }
  unfold bind at 1. unfold lift at 1. unfold Rec.getattr at 1. rewrite Ek.
  unfold bind at 1.
  pose proof (resolve_options_self st db (Rec.option_pks item) [] f1) as Ho.
  destruct (Cart.resolve_options st db (Rec.option_pks item) [] f1)
    as [[options | e] f2]; simpl in Ho.
  2: { eexists. split; [reflexivity |]. left. simpl. congruence. }
  unfold bind at 1. unfold lift at 1. unfold Rec.getitem.
  unfold bind at 1. unfold lift at 1. unfold CartItem.__init__.
  destruct (Rec.quantity item) as [z |] eqn:Eq; simpl.
  - eexists. split; [reflexivity |]. right.
    exists (CartItem.mk product options z). simpl.
    rewrite Ho, Hp. auto.
  - eexists. split; [reflexivity |]. left. simpl. congruence.
Qed.

(** A plain dict is given up at its first attribute access. *)
Lemma rebuild_item_plain (st : Settings) (db : Database) (item : Rec.t)
    (f : Cart.frame) :
  Rec.kind item = PlainDict ->
  Cart.rebuild_item st db item f = (Ok tt, Cart.print AttributeError f).
Proof.
  intros Ek. unfold Cart.rebuild_item, try_except, bind, lift, Rec.getattr.
  rewrite Ek. reflexivity.
Qed.

Lemma rebuild_loop_total (st : Settings) (db : Database)
    (recs : list Rec.t) (f : Cart.frame) :
  exists f', for_each recs (Cart.rebuild_item st db) f = (Ok tt, f').
Proof.
  revert f. induction recs as [| item rest IH]; intros f.
  - eexists. reflexivity.
  - simpl. unfold bind.
    destruct (rebuild_item_effect st db item f) as (f1 & -> & _).
    apply IH.
Qed.

Lemma rebuild_loop_plain (st : Settings) (db : Database)
    (recs : list Rec.t) (f : Cart.frame) :
  Forall (fun r => Rec.kind r = PlainDict) recs ->
  exists f',
    for_each recs (Cart.rebuild_item st db) f = (Ok tt, f')
    /\ Cart.self_of f' = Cart.self_of f.
Proof.
  intros H. revert f. induction H as [| item rest Hk _ IH]; intros f.
  - eexists. split; reflexivity.
  - simpl. unfold bind. rewrite (rebuild_item_plain st db item f Hk).
    destruct (IH (Cart.print AttributeError f)) as (f' & -> & Hs).
    eexists. split; [reflexivity | exact Hs].
Qed.

Lemma rebuild_loop_quantities (st : Settings) (db : Database)
    (recs : list Rec.t) (f : Cart.frame) :
  Forall (fun r => forall z, Rec.quantity r = PyInt z -> 1 <= z) recs ->
  quantities_positive (Cart._items_dict (Cart.self_of f)) ->
  exists f',
    for_each recs (Cart.rebuild_item st db) f = (Ok tt, f')
    /\ quantities_positive (Cart._items_dict (Cart.self_of f')).
Proof.
  intros H. revert f. induction H as [| item rest Hq _ IH]; intros f Hf.
  - eexists. split; [reflexivity | exact Hf].
  - simpl. unfold bind.
    destruct (rebuild_item_effect st db item f)
      as (f1 & -> & [Hs | (it & Hs & _ & Hz)]).
    + apply IH. by rewrite Hs.
    + apply IH. rewrite Hs. simpl.
      apply Forall_app. split; [exact Hf |].
      apply Forall_singleton. by apply Hq.
Qed.

(** Construction always returns a cart. *)
Lemma init_total (st : Settings) (db : Database) (s : Session.t)
    (session_key : option string) :
  exists c, Cart.__init__ st db s session_key = Ok c.
Proof.
  unfold Cart.__init__, Cart.rebuild. simpl.
  destruct (Session.data s !! Cart.resolve_session_key st session_key)
    as [recs |].
  - destruct (rebuild_loop_total st db recs
                (Cart.mk_frame
                   (Cart.mk [] s (Cart.resolve_session_key st session_key))
                   ∅ ∅ []))
      as (f' & ->).
    eexists. reflexivity.
  - eexists. reflexivity.
Qed.

(** A session value made of plain dicts rebuilds to the empty cart. *)
Lemma init_plain (st : Settings) (db : Database) (s : Session.t)
    (session_key : option string) :
  (forall recs,
     Session.data s !! Cart.resolve_session_key st session_key = Some recs ->
     Forall (fun r => Rec.kind r = PlainDict) recs) ->
  Cart.__init__ st db s session_key
    = Ok (Cart.mk [] s (Cart.resolve_session_key st session_key)).
Proof.
  intros H. unfold Cart.__init__, Cart.rebuild. simpl.
  destruct (Session.data s !! Cart.resolve_session_key st session_key)
    as [recs |] eqn:E; [| reflexivity].
  destruct (rebuild_loop_plain st db recs
              (Cart.mk_frame
                 (Cart.mk [] s (Cart.resolve_session_key st session_key))
                 ∅ ∅ [])
              (H recs eq_refl))
    as (f' & -> & Hs).
  by rewrite Hs.
Qed.

(** What [update_session] stores is made of plain dicts. *)
Lemma cart_serializable_plain (c : Cart.t) :
  Forall (fun r => Rec.kind r = PlainDict) (Cart.cart_serializable c).
Proof.
  unfold Cart.cart_serializable. apply Forall_forall.
  intros r Hr. apply list_elem_of_fmap in Hr as (it & -> & _). reflexivity.
Qed.

Lemma init_quantities (st : Settings) (db : Database) (s : Session.t)
    (session_key : option string) (c : Cart.t) :
  stored_quantities_positive st s session_key ->
  Cart.__init__ st db s session_key = Ok c ->
  quantities_positive (Cart.items c).
Proof.
  intros H. unfold Cart.__init__, Cart.rebuild. simpl.
  destruct (Session.data s !! Cart.resolve_session_key st session_key)
    as [recs |] eqn:E.
  - destruct (rebuild_loop_quantities st db recs
                (Cart.mk_frame
                   (Cart.mk [] s (Cart.resolve_session_key st session_key))
                   ∅ ∅ [])
                (H recs E))
      as (f' & -> & Hq); [constructor |].
    intros [= <-]. exact Hq.
  - intros [= <-]. constructor.
Qed.

(** ** The two defects in general form *)

(** On a cart that holds an item, [add] with a valid quantity raises inside
    the identity lookup instead of incrementing or appending. *)
Lemma add_nonempty_raises (product : Product.t) (options : list Option.t)
    (quantity : pyval) (z : Z) (c : Cart.t) :
  int quantity = Ok z -> 1 <= z -> Cart.items c <> [] ->
  Cart.add product options quantity c = (Raise AttributeError, c).
Proof.
  intros Hz Hq Hne. rewrite add_unfold, Hz.
  destruct (z <? 1) eqn:E; [lia |].
  destruct (Cart.items c); [contradiction | reflexivity].
Qed.

(** A cart built from the session that [update_session] has just written
    holds no item, whatever the cart that wrote it held. *)
Lemma init_of_written (st : Settings) (db : Database) (c : Cart.t)
    (session_key : option string) :
  Cart.resolve_session_key st session_key = Cart.session_key c ->
  Cart.__init__ st db (Cart.session (written c)) session_key
    = Ok (Cart.mk [] (Cart.session (written c)) (Cart.session_key c)).
Proof.
  intros Hk. rewrite init_plain; [by rewrite Hk |].
  intros recs. rewrite Hk. simpl. rewrite lookup_insert_eq.
  intros [= <-]. apply cart_serializable_plain.
Qed.

(** ** Successful operations keep quantities positive *)

Lemma run_quantities (o : op) (c c' : Cart.t) :
  run o c = (Ok tt, c') ->
  quantities_positive (Cart.items c) ->
  quantities_positive (Cart.items c').
Proof.
  destruct o as [product options quantity | product | product |
                 | product quantity options]; unfold run; intros H Hq.
  - rewrite add_unfold in H.
    destruct (int quantity) as [q | e]; [| discriminate].
    destruct (q <? 1) eqn:Eq; [discriminate |].
    destruct (Cart.items c) eqn:Ei; [| discriminate].
    injection H as <-. rewrite written_items.
    unfold Cart.append, Cart.items in *. simpl. rewrite Ei. simpl.
    apply Forall_singleton. simpl. lia.
  - rewrite remove_unfold in H. discriminate.
  - rewrite remove_single_unfold in H. discriminate.
  - rewrite clear_unfold in H. injection H as <-. constructor.
  - rewrite set_quantity_unfold in H.
    destruct (int quantity) as [q | e]; [| discriminate].
    destruct (q <? 0); [discriminate |].
    destruct (Cart.items c) eqn:Ei; [| discriminate].
    injection H as <-. by rewrite Ei.
Qed.

(** ** The claims *)

(** C1 (the code departs from the claim).  The claim: adding to a cart that
    already holds the entry increments its quantity, so that
    [add(productA, [], 2)] then [add(productA, [], 3)] gives count 5,
    unique count 1 and total 50.  The code: the first call on the empty
    cart stores the entry; the second call raises [AttributeError] inside
    the identity lookup and leaves the cart at count 2, unique count 1 and
    total 20. *)
Theorem add_existing_entry_raises :
  Cart.__init__ Shop.settings Shop.db Shop.empty_session None = Ok Shop.cart0
  /\ Cart.add Shop.productA [] (PyInt 2) Shop.cart0 = (Ok tt, Shop.cart1)
  /\ Cart.add Shop.productA [] (PyInt 3) Shop.cart1
       = (Raise AttributeError, Shop.cart1)
  /\ Cart.count Shop.cart1 = 2
  /\ Cart.unique_count Shop.cart1 = 1
  /\ Cart.total Shop.cart1 = 20.
Proof. repeat split; vm_compute; reflexivity. Qed.

(** C2 (the code departs from the claim).  The claim: a fresh cart built
    from the session after the adds has the same items.  The code: after
    one [add] the cart holds one item and the session one record, whose
    product is still in the table, and the fresh cart built from that
    session holds no item. *)
Theorem rebuild_after_add_is_empty :
  Cart.add Shop.productA [] (PyInt 2) Shop.cart0 = (Ok tt, Shop.cart1)
  /\ Cart.items Shop.cart1 = [CartItem.mk Shop.productA [] 2]
  /\ queryset_get Product.pk
       (Cart.get_product_queryset Shop.settings Shop.db) 1
       = Ok Shop.productA
  /\ Cart.__init__ Shop.settings Shop.db (Cart.session Shop.cart1) None
       = Ok (Cart.mk [] (Cart.session Shop.cart1) "CART").
Proof. repeat split; vm_compute; reflexivity. Qed.

(** C3 (the code departs from the claim).  The claim: [remove] looks the
    entry up with the options the caller gives and deletes it.  The code:
    [remove] takes the product only and reads the unbound name [options];
    on the cart holding [productA] it raises [NameError] and the entry
    stays. *)
Theorem remove_raises_name_error :
  Cart.remove Shop.productA Shop.cart1 = (Raise NameError, Shop.cart1)
  /\ Cart.items Shop.cart1 = [CartItem.mk Shop.productA [] 2].
Proof. split; reflexivity. Qed.

(** ** Operations that return have persisted *)

Lemma run_dispatch (o : op) :
  run o = Dispatch.run Cart.__index__ module_globals o.
Proof. destruct o; reflexivity. Qed.

Lemma override_index_for_state (range : list nat) (cart_items : list Rec.t)
    (product : Product.t) (options : list Option.t) (c : Cart.t) :
  snd (Override.index_for range cart_items product options c) = c.
Proof.
  induction range as [| i rest IH]; [reflexivity |].
  simpl. monad_unfold.
  destruct (cart_items !! i) as [entry |]; [| reflexivity]. simpl.
  destruct (Rec.product_pk entry =? Product.pk product); [| exact IH].
  case_bool_decide; [reflexivity | exact IH].
Qed.

Lemma override_read_only : Dispatch.read_only Override.__index__.
Proof.
  intros product options c. unfold Override.__index__. monad_unfold.
  apply override_index_for_state.
Qed.

(** Every way a sequence of steps can have returned. *)
Ltac run_cases H :=
  unfold bind, lift, ret, raise, modify in H;
  repeat case_match; simplify_eq.

Ltac persisted_by H :=
  rewrite update_session_written in H; injection H as <-;
  apply written_persisted.

(** The lookup has returned and left the cart as it was. *)
Ltac lookup_result :=
  match goal with
  | Hro : Dispatch.read_only ?index,
    E : ?index ?p ?os ?c = (Ok ?i, ?c1) |- _ =>
      let Hs := fresh "Hs" in
      pose proof (Hro p os c) as Hs; rewrite E in Hs; simpl in Hs;
      subst c1
  end.

(** The test [item_index != -1] as a fact about the index. *)
Ltac sentinel_or_not :=
  match goal with
  | Hn : negb (?i =? -1) = false |- _ =>
      assert (i = -1)
        by (destruct (Z.eqb_spec i (-1)); [done | discriminate Hn]);
      subst i; clear Hn
  | Hn : negb (?i =? -1) = true |- _ =>
      assert (i <> -1)
        by (destruct (Z.eqb_spec i (-1)); [discriminate Hn | done]);
      clear Hn
  end.

Ltac found_contradicts Hi :=
  repeat match goal with
         | E : _ = (Ok _, _) |- _ => rewrite E in Hi
         end;
  simpl in Hi; injection Hi as ->.

Ltac returned_sentinel :=
  repeat match goal with
         | E : _ = (Ok (-1), _) |- _ => rewrite E
         end.

(** C4.  When a mutating operation returns without raising, the session
    value under the cart's key is the serialized item list and the session
    is flagged modified, except for a [remove], [remove_single] or
    [set_quantity] whose lookup found nothing, which leaves the cart and
    the session as they were.  This holds of the body of every mutation,
    for every lookup that only reads the cart and every binding of
    [options]; the cart's own methods are the bodies at [Cart.__index__]
    and [module_globals]. *)
Theorem completed_operation_persists
    (index : Product.t -> list Option.t -> M Cart.t Z)
    (globals : gmap string (list Option.t)) (o : op) (c c' : Cart.t) :
  Dispatch.read_only index ->
  Dispatch.run index globals o c = (Ok tt, c') ->
  (Dispatch.skips_write index globals o c -> c' = c)
  /\ (~ Dispatch.skips_write index globals o c -> persisted c').
Proof.
  intros Hro.
  destruct o as [product options quantity | product | product |
                 | product quantity options];
    unfold Dispatch.run, Dispatch.skips_write; intros H.
  - split; [intros [] | intros _].
    unfold Cart.add_body in H. run_cases H; persisted_by H.
  - unfold Cart.remove_body, load_name in H.
    run_cases H; lookup_result; sentinel_or_not.
    + split; [| intros _; persisted_by H].
      intros (options & [= <-] & Hi). by found_contradicts Hi.
    + split; [reflexivity |].
      intros Hn. exfalso. apply Hn. eexists. split; [reflexivity |].
      by returned_sentinel.
  - unfold Cart.remove_single_body, load_name in H.
    run_cases H; lookup_result; sentinel_or_not.
    + split; [| intros _; persisted_by H].
      intros (options & [= <-] & Hi). by found_contradicts Hi.
    + split; [| intros _; persisted_by H].
      intros (options & [= <-] & Hi). by found_contradicts Hi.
    + split; [reflexivity |].
      intros Hn. exfalso. apply Hn. eexists. split; [reflexivity |].
      by returned_sentinel.
  - split; [intros [] | intros _].
    rewrite clear_unfold in H. injection H as <-. apply written_persisted.
  - unfold Cart.set_quantity_body in H.
    run_cases H; lookup_result; sentinel_or_not.
    + split; [| intros _; persisted_by H].
      intros Hi. by found_contradicts Hi.
    + split; [| intros _; persisted_by H].
      intros Hi. by found_contradicts Hi.
    + split; [reflexivity |].
      intros Hn. exfalso. apply Hn. by returned_sentinel.
Qed.

Lemma completed_operation_persists_witness :
  (Dispatch.run Override.__index__ Override.globals
     (Remove Shop.productA) Shop.cart1
   = (Ok tt, written (Cart.set_items [] Shop.cart1))
   /\ persisted (written (Cart.set_items [] Shop.cart1)))
  /\ (Dispatch.run Cart.__index__ module_globals
        (Add Shop.productA [] (PyInt 2)) Shop.cart0
      = (Ok tt, Shop.cart1)
      /\ persisted Shop.cart1).
Proof.
  assert (H1 : Dispatch.run Override.__index__ Override.globals
                 (Remove Shop.productA) Shop.cart1
               = (Ok tt, written (Cart.set_items [] Shop.cart1)))
    by (vm_compute; reflexivity).
  assert (H2 : Dispatch.run Cart.__index__ module_globals
                 (Add Shop.productA [] (PyInt 2)) Shop.cart0
               = (Ok tt, Shop.cart1))
    by (vm_compute; reflexivity).
  split; (split; [assumption |]).
  - apply (completed_operation_persists _ _ _ _ _ override_read_only H1).
    intros (options & [= <-] & Hi). vm_compute in Hi. discriminate.
  - apply (completed_operation_persists _ _ _ _ _ index_state H2).
    simpl. tauto.
Defined.

(** The same for the cart's own methods, with [Cart.__index__] and the
    namespace of the module: an operation that returns has persisted,
    except for a [remove] or [set_quantity] whose lookup found nothing. *)
Lemma own_operation_persists (o : op) (c c' : Cart.t) :
  run o c = (Ok tt, c') ->
  (skips_write o c -> Cart.session c' = Cart.session c)
  /\ (~ skips_write o c -> persisted c').
Proof.
  destruct o as [product options quantity | product | product |
                 | product quantity options]; unfold run; intros H.
  - rewrite add_unfold in H.
    destruct (int quantity) as [q | e]; [| discriminate].
    destruct (q <? 1); [discriminate |].
    destruct (Cart.items c); [| discriminate].
    injection H as <-. split; [intros [] |].
    intros _. apply written_persisted.
  - rewrite remove_unfold in H. discriminate.
  - rewrite remove_single_unfold in H. discriminate.
  - rewrite clear_unfold in H. injection H as <-. split; [intros [] |].
    intros _. apply written_persisted.
  - rewrite set_quantity_unfold in H.
    destruct (int quantity) as [q | e]; [| discriminate].
    destruct (q <? 0); [discriminate |].
    destruct (Cart.items c) eqn:Ei; [| discriminate].
    injection H as <-. split; [reflexivity |].
    intros Hn. exfalso. apply Hn. unfold skips_write, finds_nothing.
    by rewrite (index_empty product options c Ei).
Qed.

(** C5 (the code departs from the claim).  The claim: [set_quantity(p, 0)]
    on a cart holding [p] removes the entry and persists the removal.  The
    code: on the cart holding [productA] the call raises [AttributeError]
    inside the identity lookup; the entry and the session stay. *)
Theorem set_quantity_zero_raises :
  Cart.set_quantity Shop.productA (PyInt 0) [] Shop.cart1
    = (Raise AttributeError, Shop.cart1)
  /\ Cart.items Shop.cart1 = [CartItem.mk Shop.productA [] 2].
Proof. split; vm_compute; reflexivity. Qed.

(** C6 (the code departs from the claim).  The claim: [remove_single]
    applied q times to an entry of quantity q removes it, and fewer times
    decrements it.  The code: on the entry of quantity 2 the first call
    raises [NameError] and the quantity stays 2, and so does the second. *)
Theorem remove_single_raises_name_error :
  Cart.remove_single Shop.productA Shop.cart1
    = (Raise NameError, Shop.cart1)
  /\ snd (Cart.remove_single Shop.productA
            (snd (Cart.remove_single Shop.productA Shop.cart1)))
     = Shop.cart1
  /\ map CartItem.quantity (Cart.items Shop.cart1) = [2].
Proof. repeat split; reflexivity. Qed.

(** C7 (the code departs from the claim).  The claim: a record that fails
    to resolve is skipped and the remaining records are rebuilt.  The code:
    with a stored record for [productA], which is in the table, and one for
    the missing product 99, construction returns a cart without raising,
    but with no item at all: both records are given up with
    [AttributeError], printed once each. *)
Theorem rebuild_drops_resolvable_record :
  queryset_get Product.pk
    (Cart.get_product_queryset Shop.settings Shop.db) 1 = Ok Shop.productA
  /\ Cart.__init__ Shop.settings Shop.db Shop.stale_session None
       = Ok (Cart.mk [] Shop.stale_session "CART")
  /\ Cart.stdout (snd (Cart.rebuild Shop.settings Shop.db
                         Shop.stale_session None))
       = [AttributeError; AttributeError].
Proof. repeat split; vm_compute; reflexivity. Qed.

(** C8.  [add] with a quantity that coerces to an integer below 1, and
    [set_quantity] with one that coerces to an integer below 0, raise
    [ValueError] and leave the cart, its items and its session, exactly as
    it was. *)
Theorem invalid_quantity_fails_fast (c : Cart.t) (product : Product.t)
    (options : list Option.t) (quantity : pyval) (z : Z) :
  int quantity = Ok z ->
  (z < 1 -> Cart.add product options quantity c = (Raise ValueError, c))
  /\ (z < 0 ->
      Cart.set_quantity product quantity options c = (Raise ValueError, c)).
Proof.
  intros Hz. split; intros Hlt.
  - rewrite add_unfold, Hz.
    destruct (z <? 1) eqn:E; [reflexivity | lia].
  - rewrite set_quantity_unfold, Hz.
    destruct (z <? 0) eqn:E; [reflexivity | lia].
Qed.

Lemma invalid_quantity_fails_fast_witness :
  Cart.add Shop.productA [Shop.optionX] (PyInt (-1)) Shop.cart1
    = (Raise ValueError, Shop.cart1)
  /\ Cart.set_quantity Shop.productA (PyInt (-1)) [Shop.optionX] Shop.cart1
     = (Raise ValueError, Shop.cart1).
Proof.
  destruct (invalid_quantity_fails_fast Shop.cart1 Shop.productA
              [Shop.optionX] (PyInt (-1)) (-1) eq_refl) as [Ha Hs].
  split; [apply Ha; lia | apply Hs; lia].
Defined.

(** C9.  In every cart built from a session whose stored records are plain
    dicts, and in every cart reached from it by operations that complete
    without raising, every item has a quantity of at least 1. *)
Theorem reachable_quantities_positive (st : Settings) (db : Database)
    (s : Session.t) (session_key : option string) (c0 c : Cart.t) :
  stored_records_plain st s session_key ->
  Cart.__init__ st db s session_key = Ok c0 ->
  reachable c0 c ->
  quantities_positive (Cart.items c).
Proof.
  intros Hs Hi Hr. induction Hr as [| c c' o _ IH Hrun].
  - rewrite (init_plain st db s session_key Hs) in Hi.
    injection Hi as <-. constructor.
  - exact (run_quantities o c c' Hrun IH).
Qed.

Lemma reachable_quantities_positive_witness :
  stored_records_plain Shop.settings Shop.stale_session None
  /\ Cart.__init__ Shop.settings Shop.db Shop.stale_session None
       = Ok Shop.stale_cart
  /\ run (Add Shop.productA [Shop.optionX] (PyInt 3)) Shop.stale_cart
       = (Ok tt, Shop.refilled_cart)
  /\ quantities_positive (Cart.items Shop.refilled_cart).
Proof.
  assert (Hs : stored_records_plain Shop.settings Shop.stale_session None).
  { intros recs H. vm_compute in H. injection H as <-.
    repeat constructor. }
  assert (Hi : Cart.__init__ Shop.settings Shop.db Shop.stale_session None
               = Ok Shop.stale_cart) by (vm_compute; reflexivity).
  assert (Hrun : run (Add Shop.productA [Shop.optionX] (PyInt 3))
                     Shop.stale_cart = (Ok tt, Shop.refilled_cart))
    by (vm_compute; reflexivity).
  split; [exact Hs |]. split; [exact Hi |]. split; [exact Hrun |].
  apply (reachable_quantities_positive Shop.settings Shop.db
           Shop.stale_session None Shop.stale_cart Shop.refilled_cart Hs Hi).
  apply (reach_step _ Shop.stale_cart _
           (Add Shop.productA [Shop.optionX] (PyInt 3)));
    [constructor | exact Hrun].
Defined.

(** ** Calls that raise *)

(** On entities, whenever a mutation call raises, whatever the exception
    (from the coercion of the quantity, from the quantity check, from the
    unbound name or from the identity lookup), the cart is exactly as it was
    before the call: the same items, the same session, the same key. *)
Lemma raising_operation_on_entities (o : op) (c c' : Cart.t)
    (e : exn) :
  run o c = (Raise e, c') -> c' = c.
Proof.
  destruct o as [product options quantity | product | product |
                 | product quantity options]; unfold run; intros H.
  - rewrite add_unfold in H.
    destruct (int quantity) as [q | e0]; [| congruence].
    destruct (q <? 1); [congruence |].
    destruct (Cart.items c); congruence.
  - rewrite remove_unfold in H. congruence.
  - rewrite remove_single_unfold in H. congruence.
  - rewrite clear_unfold in H. discriminate.
  - rewrite set_quantity_unfold in H.
    destruct (int quantity) as [q | e0]; [| congruence].
    destruct (q <? 0); [congruence |].
    destruct (Cart.items c); congruence.
Qed.

(** *** The cart over arbitrary arguments *)

Lemma traverse_pk_entities (l : list Option.t) :
  traverse (getattr_pk Option.pk) (map Entity l) = Ok (map Option.pk l).
Proof. induction l as [| o l IH]; [reflexivity |]. simpl. by rewrite IH. Qed.

Lemma dyn_to_dict_plain (it : DynItem.t) (r : Rec.t) :
  DynItem.to_dict it = Ok r -> Rec.kind r = PlainDict.
Proof.
  unfold DynItem.to_dict.
  destruct (getattr_pk Product.pk (DynItem.product it)); [| discriminate].
  destruct (option_pks_of (DynItem.options it)); [| discriminate].
  by intros [= <-].
Qed.

Lemma dyn_to_dict_entities (it : CartItem.t) :
  DynItem.to_dict (Embed.of_item it) = Ok (CartItem.to_dict it).
Proof.
  unfold DynItem.to_dict, Embed.of_item. simpl.
  by rewrite traverse_pk_entities.
Qed.

Lemma dyn_serializable_entities (c : Cart.t) :
  Dyn.cart_serializable (Embed.of_cart c) = Ok (Cart.cart_serializable c).
Proof.
  unfold Dyn.cart_serializable, Cart.cart_serializable, Dyn.items,
    Cart.items, Embed.of_cart. simpl.
  induction (Cart._items_dict c) as [| it l IH]; [reflexivity |].
  simpl. by rewrite IH, dyn_to_dict_entities.
Qed.

(** The identity lookup of [Dyn]: the sentinel on a cart without items, an
    exception on any other, from [to_dict] or from the first read of
    [product_pk]. *)
Lemma dyn_index_cases (product : pyobject Product.t) (options : pyoptions)
    (c : Dyn.t) :
  Dyn.__index__ product options c
    = (match Dyn.items c with
       | [] => Ok (-1)
       | _ :: _ => Raise (dyn_lookup_error c)
       end, c).
Proof.
  unfold Dyn.__index__, dyn_lookup_error. monad_unfold.
  destruct c as [[| it l] s k]; [reflexivity |].
  unfold Dyn.cart_serializable, Dyn.items. cbn [Dyn._items_dict].
  destruct (traverse DynItem.to_dict (it :: l)) as [rs | e] eqn:E;
    [| reflexivity].
  simpl in E. destruct (DynItem.to_dict it) as [r | e'] eqn:Er;
    [| discriminate].
  destruct (traverse DynItem.to_dict l) as [rs' | e']; [| discriminate].
  injection E as <-. pose proof (dyn_to_dict_plain it r Er) as Hk.
  destruct r as [kd ppk opks q]. simpl in Hk. subst kd. reflexivity.
Qed.

Lemma dyn_update_session (c : Dyn.t) :
  Dyn.update_session c
    = match Dyn.cart_serializable c with
      | Ok v => (Ok tt, dyn_written_with v c)
      | Raise e => (Raise e, c)
      end.
Proof.
  unfold Dyn.update_session. monad_unfold.
  by destruct (Dyn.cart_serializable c).
Qed.

Lemma dyn_add_unfold (product : pyobject Product.t) (options : pyoptions)
    (quantity : pyval) (c : Dyn.t) :
  Dyn.add product options quantity c =
    match int quantity with
    | Raise e => (Raise e, c)
    | Ok q =>
        if q <? 1 then (Raise ValueError, c)
        else
          match Dyn.items c with
          | [] =>
              Dyn.update_session
                (Dyn.append (DynItem.mk product options q) c)
          | _ :: _ => (Raise (dyn_lookup_error c), c)
          end
    end.
Proof.
  unfold Dyn.add. unfold bind at 1. unfold lift at 1.
  destruct (int quantity) as [q | e]; [| reflexivity].
  destruct (q <? 1); [reflexivity |].
  unfold bind at 1. rewrite dyn_index_cases.
  by destruct (Dyn.items c).
Qed.

Lemma dyn_set_quantity_unfold (product : pyobject Product.t)
    (quantity : pyval) (options : pyoptions) (c : Dyn.t) :
  Dyn.set_quantity product quantity options c =
    match int quantity with
    | Raise e => (Raise e, c)
    | Ok q =>
        if q <? 0 then (Raise ValueError, c)
        else
          match Dyn.items c with
          | [] => (Ok tt, c)
          | _ :: _ => (Raise (dyn_lookup_error c), c)
          end
    end.
Proof.
  unfold Dyn.set_quantity. unfold bind at 1. unfold lift at 1.
  destruct (int quantity) as [q | e]; [| reflexivity].
  destruct (q <? 0); [reflexivity |].
  unfold bind at 1. rewrite dyn_index_cases.
  by destruct (Dyn.items c).
Qed.

(** On entities, [Dyn] is the cart of [Cart]: the same outcome and the same
    cart after every call. *)
Lemma dyn_simulates (o : op) (c : Cart.t) :
  Dyn.run (Embed.of_op o) (Embed.of_cart c)
    = (fst (run o c), Embed.of_cart (snd (run o c))).
Proof.
  destruct o as [product options quantity | product | product |
                 | product quantity options]; unfold run, Dyn.run; simpl.
  - rewrite add_unfold, dyn_add_unfold.
    destruct (int quantity) as [q | e]; [| reflexivity].
    destruct (q <? 1); [reflexivity |].
    unfold dyn_lookup_error. rewrite dyn_serializable_entities.
    destruct c as [[| it l] s k]; [| reflexivity].
    unfold Dyn.items, Cart.items, Embed.of_cart. simpl.
    rewrite dyn_update_session.
    unfold Dyn.cart_serializable, Dyn.append, Dyn.items. simpl.
    unfold DynItem.to_dict. simpl. by rewrite traverse_pk_entities.
  - reflexivity.
  - reflexivity.
  - by destruct c.
  - rewrite set_quantity_unfold, dyn_set_quantity_unfold.
    destruct (int quantity) as [q | e]; [| reflexivity].
    destruct (q <? 0); [reflexivity |].
    unfold dyn_lookup_error. rewrite dyn_serializable_entities.
    by destruct c as [[| it l] s k].
Qed.

(** A call with entities that raises leaves the cart of [Dyn] as it was. *)
Lemma dyn_raise_on_entities (o : op) (c : Cart.t) (c' : Dyn.t) (e : exn) :
  Dyn.run (Embed.of_op o) (Embed.of_cart c) = (Raise e, c') ->
  c' = Embed.of_cart c.
Proof.
  rewrite dyn_simulates. destruct (run o c) as [r c1] eqn:E. simpl.
  intros [= -> <-]. by rewrite (raising_operation_on_entities o c c1 e E).
Qed.

(** C10, as stated, fails: [add] appends the new item and only then
    serializes the cart in [update_session]; with an option that has no
    [pk] that raises [AttributeError], and the raising call leaves the item
    list one item longer (the session is not written). *)
Lemma add_raises_after_append :
  Dyn.run Misuse.bad_add Misuse.cart0
    = (Raise AttributeError, Misuse.cart_after)
  /\ Dyn.items Misuse.cart0 = []
  /\ Dyn.items Misuse.cart_after = [Misuse.bad_item]
  /\ Dyn.items Misuse.cart_after <> Dyn.items Misuse.cart0.
Proof.
  split; [vm_compute; reflexivity |].
  split; [reflexivity |]. split; [reflexivity | discriminate].
Qed.

Ltac unchanged :=
  split; [reflexivity |]; split; [reflexivity |]; by left.

(** C10, amended.  Whenever a mutation call raises, the session and the
    session key are exactly as they were before the call, and so is the
    item list, with one exception: an [add] that raises while
    [update_session] serializes the new item (its product or one of its
    options has no [pk], or its options cannot be iterated) has already
    appended that item.  With entities as arguments nothing changes at all
    (lemmas [raising_operation_on_entities] and [dyn_raise_on_entities]). *)
Theorem raising_call_keeps_session (o : Dyn.call) (c c' : Dyn.t)
    (e : exn) :
  Dyn.run o c = (Raise e, c') ->
  Dyn.session c' = Dyn.session c
  /\ Dyn.session_key c' = Dyn.session_key c
  /\ (Dyn.items c' = Dyn.items c
      \/ exists product options quantity z,
           o = Dyn.Add product options quantity
           /\ int quantity = Ok z
           /\ DynItem.to_dict (DynItem.mk product options z) = Raise e
           /\ Dyn.items c'
              = Dyn.items c ++ [DynItem.mk product options z]).
Proof.
  destruct o as [product options quantity | product | product |
                 | product quantity options]; unfold Dyn.run; intros H.
  - rewrite dyn_add_unfold in H.
    destruct (int quantity) as [q | e0] eqn:Eq;
      [| injection H as <- <-; unchanged].
    destruct (q <? 1); [injection H as <- <-; unchanged |].
    destruct c as [[| it l] s k]; unfold Dyn.items in H;
      cbn [Dyn._items_dict] in H; [| injection H as <- <-; unchanged].
    rewrite dyn_update_session in H.
    unfold Dyn.cart_serializable, Dyn.append, Dyn.items in H.
    cbn [Dyn._items_dict Dyn.set_items app traverse] in H.
    destruct (DynItem.to_dict (DynItem.mk product options q))
      as [r | e0] eqn:Ed; [discriminate |].
    injection H as <- <-.
    split; [reflexivity |]. split; [reflexivity |]. right.
    exists product, options, quantity, q. by repeat split.
  - injection H as <- <-. unchanged.
  - injection H as <- <-. unchanged.
  - unfold Dyn.clear in H. monad_unfold. simpl in H.
    rewrite dyn_update_session in H.
    change (Dyn.cart_serializable (Dyn.set_items [] c))
      with (@Ok (list Rec.t) []) in H.
    discriminate.
  - rewrite dyn_set_quantity_unfold in H.
    destruct (int quantity) as [q | e0];
      [| injection H as <- <-; unchanged].
    destruct (q <? 0); [injection H as <- <-; unchanged |].
    destruct c as [[| it l] s k]; [discriminate |].
    injection H as <- <-. unchanged.
Qed.

Lemma raising_call_keeps_session_witness :
  Dyn.run Misuse.bad_add Misuse.cart0
    = (Raise AttributeError, Misuse.cart_after)
  /\ Dyn.session Misuse.cart_after = Dyn.session Misuse.cart0
  /\ Dyn.session_key Misuse.cart_after = Dyn.session_key Misuse.cart0.
Proof.
  assert (H : Dyn.run Misuse.bad_add Misuse.cart0
              = (Raise AttributeError, Misuse.cart_after))
    by (vm_compute; reflexivity).
  split; [exact H |].
  destruct (raising_call_keeps_session _ _ _ _ H) as (Hs & Hk & _).
  by split.
Defined.

(** * Further properties of the code *)

(** ** The caches of the rebuild *)

Ltac frame_same :=
  repeat (split; [first [reflexivity | eassumption] |]);
  first [reflexivity | eassumption].

Lemma coherent_start (st : Settings) (db : Database) (self : Cart.t) :
  coherent st db (Cart.mk_frame self ∅ ∅ []).
Proof. split; intros k x H; simpl in H; by rewrite lookup_empty in H. Qed.

Lemma resolve_product_coherent (st : Settings) (db : Database) (k : Z)
    (f : Cart.frame) :
  coherent st db f ->
  exists f',
    Cart.resolve_product st db k f
      = (queryset_get Product.pk (Cart.get_product_queryset st db) k, f')
    /\ coherent st db f'
    /\ Cart.self_of f' = Cart.self_of f
    /\ Cart.stdout f' = Cart.stdout f.
Proof.
  intros [Hp Ho]. unfold Cart.resolve_product. monad_unfold. simpl.
  destruct (Cart.products_cache f !! k) as [p |] eqn:E.
  - exists f. rewrite (Hp k p E). by repeat split.
  - destruct (queryset_get Product.pk (Cart.get_product_queryset st db) k)
      as [p | e] eqn:Eg.
    + exists (Cart.cache_product k p f). split; [reflexivity |].
      split; [| by split]. split; [| exact Ho].
      intros k' p'. simpl.
      destruct (decide (k = k')) as [<- | Hne].
      * rewrite lookup_insert_eq. by intros [= <-].
      * rewrite lookup_insert_ne by done. apply Hp.
    + exists f. by repeat split.
Qed.

Lemma resolve_options_coherent (st : Settings) (db : Database)
    (pks : list Z) (acc : list Option.t) (f : Cart.frame) :
  coherent st db f ->
  exists f',
    Cart.resolve_options st db pks acc f
      = (match get_all Option.pk (Cart.get_option_queryset st db) pks with
         | Ok l => Ok (acc ++ l)
         | Raise e => Raise e
         end, f')
    /\ coherent st db f'
    /\ Cart.self_of f' = Cart.self_of f
    /\ Cart.stdout f' = Cart.stdout f.
Proof.
  revert acc f. induction pks as [| k rest IH]; intros acc f Hc.
  - exists f. simpl. rewrite app_nil_r. frame_same.
  - simpl. monad_unfold. simpl.
    destruct (Cart.options_cache f !! k) as [o |] eqn:E.
    + rewrite (proj2 Hc k o E).
      destruct (IH (acc ++ [o]) f Hc) as (f' & -> & Hc' & Hs & Hout).
      exists f'. split; [| frame_same].
      destruct (get_all Option.pk (Cart.get_option_queryset st db) rest);
        [| reflexivity].
      by rewrite <- app_assoc.
    + destruct (queryset_get Option.pk (Cart.get_option_queryset st db) k)
        as [o | e] eqn:Eg.
      * assert (Hc1 : coherent st db (Cart.cache_option k o f)).
        { destruct Hc as [Hp Ho]. split; [exact Hp |].
          intros k' o'. simpl.
          destruct (decide (k = k')) as [<- | Hne].
          - rewrite lookup_insert_eq. by intros [= <-].
          - rewrite lookup_insert_ne by done. apply Ho. }
        destruct (IH (acc ++ [o]) (Cart.cache_option k o f) Hc1)
          as (f' & -> & Hc' & Hs & Hout).
        exists f'. split; [| frame_same].
        destruct (get_all Option.pk (Cart.get_option_queryset st db) rest);
          [| reflexivity].
        by rewrite <- app_assoc.
      * exists f. frame_same.
Qed.

(** With coherent caches, the body of the loop does to the cart what the
    record resolved without caches says, and prints what it says. *)
Lemma rebuild_item_direct (st : Settings) (db : Database) (item : Rec.t)
    (f : Cart.frame) :
  coherent st db f ->
  exists f',
    Cart.rebuild_item st db item f = (Ok tt, f')
    /\ coherent st db f'
    /\ match resolve_direct st db item with
       | Ok it =>
           Cart.self_of f'
             = Cart.set_items (Cart._items_dict (Cart.self_of f) ++ [it])
                              (Cart.self_of f)
           /\ Cart.stdout f' = Cart.stdout f
       | Raise e =>
           Cart.self_of f' = Cart.self_of f
           /\ Cart.stdout f' = Cart.stdout f ++ [e]
       end.
Proof.
  intros Hc. unfold Cart.rebuild_item, resolve_direct, try_except.
  unfold bind at 1. unfold lift at 1. unfold Rec.getattr at 1 3.
  destruct (Rec.kind item) eqn:Ek.
  { eexists. split; [reflexivity |]. split; [exact Hc | by split]. }
  unfold bind at 1.
  destruct (resolve_product_coherent st db (Rec.product_pk item) f Hc)
    as (f1 & -> & Hc1 & Hs1 & Ho1).
  destruct (queryset_get Product.pk (Cart.get_product_queryset st db)
              (Rec.product_pk item)) as [product | e].
  2: { eexists. split; [reflexivity |]. split; [exact Hc1 |].
       simpl. by rewrite Hs1, Ho1. }
  unfold bind at 1. unfold lift at 1. unfold Rec.getattr. rewrite Ek.
  unfold bind at 1.
  destruct (resolve_options_coherent st db (Rec.option_pks item) [] f1 Hc1)
    as (f2 & -> & Hc2 & Hs2 & Ho2).
  destruct (get_all Option.pk (Cart.get_option_queryset st db)
              (Rec.option_pks item)) as [options | e].
  2: { eexists. split; [reflexivity |]. split; [exact Hc2 |].
       simpl. by rewrite Hs2, Ho2, Hs1, Ho1. }
  unfold bind at 1. unfold lift at 1. unfold Rec.getitem.
  unfold bind at 1. unfold lift at 1.
  destruct (CartItem.__init__ product ([] ++ options) (Rec.quantity item))
    as [it | e] eqn:Ei; simpl in Ei; rewrite Ei.
  - eexists. split; [reflexivity |]. split; [exact Hc2 |].
    simpl. by rewrite Hs2, Ho2, Hs1, Ho1.
  - eexists. split; [reflexivity |]. split; [exact Hc2 |].
    simpl. by rewrite Hs2, Ho2, Hs1, Ho1.
Qed.

Lemma rebuild_loop_direct (st : Settings) (db : Database)
    (recs : list Rec.t) (f : Cart.frame) :
  coherent st db f ->
  exists f',
    for_each recs (Cart.rebuild_item st db) f = (Ok tt, f')
    /\ Cart.self_of f'
       = Cart.set_items
           (Cart._items_dict (Cart.self_of f) ++ rebuilt_items st db recs)
           (Cart.self_of f)
    /\ Cart.stdout f' = Cart.stdout f ++ reported st db recs.
Proof.
  revert f. induction recs as [| item rest IH]; intros f Hc.
  - exists f. simpl. rewrite !app_nil_r. split; [reflexivity |].
    split; [by destruct (Cart.self_of f) | reflexivity].
  - simpl. unfold bind.
    destruct (rebuild_item_direct st db item f Hc) as (f1 & -> & Hc1 & H1).
    destruct (IH f1 Hc1) as (f' & -> & Hs & Hout).
    exists f'. split; [reflexivity |].
    unfold rebuilt_items, reported in *. simpl.
    destruct (resolve_direct st db item) as [it | e];
      destruct H1 as [Hs1 Ho1]; rewrite Hs, Hout, Hs1, Ho1; simpl.
    + by rewrite <- app_assoc.
    + by rewrite <- app_assoc.
Qed.

(** ** What the querysets return *)

Lemma queryset_get_ok {A} (pk_of : A -> Z) (queryset : list A) (k : Z)
    (x : A) :
  queryset_get pk_of queryset k = Ok x -> In x queryset /\ pk_of x = k.
Proof.
  unfold queryset_get.
  destruct (List.filter (fun y => pk_of y =? k) queryset) as [| y [| z l]]
    eqn:E; try discriminate.
  intros [= <-].
  assert (Hin : In y (List.filter (fun y => pk_of y =? k) queryset))
    by (rewrite E; by left).
  apply filter_In in Hin as [Hin Hk]. split; [exact Hin | lia].
Qed.

Lemma get_all_ok {A} (pk_of : A -> Z) (queryset : list A) (pks : list Z)
    (xs : list A) :
  get_all pk_of queryset pks = Ok xs ->
  Forall (fun x => In x queryset) xs /\ map pk_of xs = pks.
Proof.
  revert xs. induction pks as [| k rest IH]; intros xs; simpl.
  - intros [= <-]. split; [constructor | reflexivity].
  - destruct (queryset_get pk_of queryset k) as [x | e] eqn:Ex;
      [| discriminate].
    destruct (get_all pk_of queryset rest) as [l | e]; [| discriminate].
    intros [= <-]. destruct (IH l eq_refl) as [Hin Hmap].
    apply queryset_get_ok in Ex as [Hx Hk].
    split; [by constructor | simpl; congruence].
Qed.

Lemma product_queryset_in (st : Settings) (db : Database) (p : Product.t) :
  In p (Cart.get_product_queryset st db) ->
  In p (product_table db)
  /\ forall lookup, CART_PRODUCT_LOOKUP st = Some lookup -> lookup p = true.
Proof.
  unfold Cart.get_product_queryset, Cart.filter_products.
  destruct (CART_PRODUCT_LOOKUP st) as [g |].
  - intros H. apply filter_In in H as [Hin Hg].
    split; [exact Hin |]. by intros lookup [= <-].
  - intros H. split; [exact H | discriminate].
Qed.

Lemma option_queryset_in (st : Settings) (db : Database) (o : Option.t) :
  In o (Cart.get_option_queryset st db) ->
  In o (option_table db)
  /\ forall lookup, CART_OPTION_LOOKUP st = Some lookup -> lookup o = true.
Proof.
  unfold Cart.get_option_queryset, Cart.filter_options.
  destruct (CART_OPTION_LOOKUP st) as [g |].
  - intros H. apply filter_In in H as [Hin Hg].
    split; [exact Hin |]. by intros lookup [= <-].
  - intros H. split; [exact H | discriminate].
Qed.

(** What a record that resolves resolves to. *)
Lemma resolve_direct_ok (st : Settings) (db : Database) (item : Rec.t)
    (it : CartItem.t) :
  resolve_direct st db item = Ok it ->
  Rec.kind item = AttrDict
  /\ CartItem.to_dict it = as_plain item
  /\ In (CartItem.product it) (Cart.get_product_queryset st db)
  /\ Forall (fun o => In o (Cart.get_option_queryset st db))
            (CartItem.options it).
Proof.
  unfold resolve_direct, Rec.getattr.
  destruct (Rec.kind item) eqn:Ek; [discriminate |].
  destruct (queryset_get Product.pk _ (Rec.product_pk item))
    as [product | e] eqn:Ep; [| discriminate].
  destruct (get_all Option.pk _ (Rec.option_pks item))
    as [options | e] eqn:Eo; [| discriminate].
  unfold CartItem.__init__.
  destruct (Rec.quantity item) as [z |] eqn:Eq; [| discriminate].
  simpl. intros [= <-].
  apply queryset_get_ok in Ep as [Hp Hk].
  apply get_all_ok in Eo as [Ho Hm].
  split; [reflexivity |]. split; [| by split].
  unfold CartItem.to_dict, as_plain. simpl. by rewrite Hk, Hm, Eq.
Qed.

Lemma init_rebuild (st : Settings) (db : Database) (s : Session.t)
    (session_key : option string) :
  exists f,
    Cart.rebuild st db s session_key = (Ok tt, f)
    /\ Cart.self_of f
       = Cart.mk (rebuilt_items st db (stored st s session_key)) s
                 (Cart.resolve_session_key st session_key)
    /\ Cart.stdout f = reported st db (stored st s session_key).
Proof.
  unfold Cart.rebuild, stored. simpl.
  destruct (Session.data s !! Cart.resolve_session_key st session_key)
    as [recs |]; simpl.
  - destruct (rebuild_loop_direct st db recs
                (Cart.mk_frame
                   (Cart.mk [] s (Cart.resolve_session_key st session_key))
                   ∅ ∅ [])
                (coherent_start st db _))
      as (f & -> & Hs & Ho).
    exists f. split; [reflexivity |]. by split.
  - eexists. split; [reflexivity |]. by split.
Qed.

Lemma rebuilt_items_cons (st : Settings) (db : Database) (r : Rec.t)
    (rest : list Rec.t) :
  rebuilt_items st db (r :: rest)
    = match resolve_direct st db r with
      | Ok it => it :: rebuilt_items st db rest
      | Raise _ => rebuilt_items st db rest
      end.
Proof. unfold rebuilt_items. simpl. by destruct (resolve_direct st db r). Qed.

Lemma reported_cons (st : Settings) (db : Database) (r : Rec.t)
    (rest : list Rec.t) :
  reported st db (r :: rest)
    = match resolve_direct st db r with
      | Ok _ => reported st db rest
      | Raise e => e :: reported st db rest
      end.
Proof. unfold reported. simpl. by destruct (resolve_direct st db r). Qed.

Lemma rebuilt_reported_length (st : Settings) (db : Database)
    (recs : list Rec.t) :
  (length (rebuilt_items st db recs) + length (reported st db recs))%nat
    = length recs.
Proof.
  induction recs as [| r rest IH]; [reflexivity |].
  rewrite rebuilt_items_cons, reported_cons.
  destruct (resolve_direct st db r); simpl; lia.
Qed.

(** ** Construction *)

(** X1.  Constructing a cart never raises and never writes to the session;
    the cart holds, in stored order, the items of exactly those stored
    records that resolve when each key is fetched from the querysets: the
    two caches change nothing in the result. *)
Theorem construction_resolves_stored_records (st : Settings) (db : Database)
    (s : Session.t) (session_key : option string) :
  Cart.__init__ st db s session_key
    = Ok (Cart.mk (rebuilt_items st db (stored st s session_key)) s
                  (Cart.resolve_session_key st session_key)).
Proof.
  unfold Cart.__init__.
  destruct (init_rebuild st db s session_key) as (f & -> & Hs & _).
  by rewrite Hs.
Qed.

(** X2.  Every stored record is either rebuilt into one item or given up
    with one printed exception: what construction prints is, in stored
    order, the exception of each record that does not resolve, and items
    and printed exceptions together are as many as the stored records. *)
Theorem construction_reports_skipped_records (st : Settings) (db : Database)
    (s : Session.t) (session_key : option string) :
  let f := snd (Cart.rebuild st db s session_key) in
  Cart.stdout f = reported st db (stored st s session_key)
  /\ (length (Cart.items (Cart.self_of f)) + length (Cart.stdout f))%nat
     = length (stored st s session_key).
Proof.
  destruct (init_rebuild st db s session_key) as (f & -> & Hs & Ho).
  simpl. split; [exact Ho |]. rewrite Hs, Ho. unfold Cart.items. simpl.
  apply rebuilt_reported_length.
Qed.

(** X3.  Serializing a freshly constructed cart gives back the stored
    records that resolve, in order and with the same product key, option
    keys and quantity, each as a plain dict. *)
Theorem constructed_cart_serializes_to_resolved_records (st : Settings)
    (db : Database) (s : Session.t) (session_key : option string) :
  exists c,
    Cart.__init__ st db s session_key = Ok c
    /\ Cart.cart_serializable c
       = map as_plain (List.filter (resolves st db)
                                   (stored st s session_key)).
Proof.
  unfold Cart.__init__.
  destruct (init_rebuild st db s session_key) as (f & -> & Hs & _).
  eexists. split; [reflexivity |]. rewrite Hs. clear Hs.
  unfold Cart.cart_serializable, Cart.items, resolves. simpl.
  induction (stored st s session_key) as [| r rest IH]; [reflexivity |].
  rewrite rebuilt_items_cons. simpl.
  destruct (resolve_direct st db r) as [it | e] eqn:E; simpl.
  - rewrite IH. f_equal. by apply resolve_direct_ok in E as (_ & -> & _).
  - exact IH.
Qed.

Lemma rebuilt_items_in (st : Settings) (db : Database) (recs : list Rec.t)
    (it : CartItem.t) :
  In it (rebuilt_items st db recs) ->
  exists r, In r recs /\ resolve_direct st db r = Ok it.
Proof.
  induction recs as [| r rest IH]; [intros [] |].
  rewrite rebuilt_items_cons.
  destruct (resolve_direct st db r) as [it' | e] eqn:E.
  - intros [<- | Hin].
    + exists r. split; [by left | exact E].
    + destruct (IH Hin) as (r' & Hr & Hd). exists r'. split; [by right | done].
  - intros Hin.
    destruct (IH Hin) as (r' & Hr & Hd). exists r'. split; [by right | done].
Qed.

(** X4.  Every item of a constructed cart holds a product that is a row of
    the product table and passes [CART_PRODUCT_LOOKUP] when one is
    configured, and options that are rows of the option table and pass
    [CART_OPTION_LOOKUP]: an entity that the configured lookup excludes is
    never put in a cart, even when a stored record names its key. *)
Theorem rebuilt_items_pass_lookups (st : Settings) (db : Database)
    (s : Session.t) (session_key : option string) (c : Cart.t)
    (it : CartItem.t) :
  Cart.__init__ st db s session_key = Ok c ->
  In it (Cart.items c) ->
  (In (CartItem.product it) (product_table db)
   /\ forall lookup,
        CART_PRODUCT_LOOKUP st = Some lookup ->
        lookup (CartItem.product it) = true)
  /\ Forall (fun o =>
               In o (option_table db)
               /\ forall lookup,
                    CART_OPTION_LOOKUP st = Some lookup -> lookup o = true)
            (CartItem.options it).
Proof.
  unfold Cart.__init__.
  destruct (init_rebuild st db s session_key) as (f & -> & Hs & _).
  intros [= <-]. rewrite Hs. unfold Cart.items. simpl. intros Hin.
  apply rebuilt_items_in in Hin as (r & _ & Hd).
  apply resolve_direct_ok in Hd as (_ & _ & Hp & Ho).
  split; [by apply product_queryset_in |].
  eapply Forall_impl; [exact Ho |].
  intros o Hin. by apply option_queryset_in.
Qed.

Lemma rebuilt_items_pass_lookups_witness :
  Cart.__init__ Outlet.settings Outlet.db Outlet.session None
    = Ok Outlet.cart
  /\ In Outlet.second_item (Cart.items Outlet.cart)
  /\ In (CartItem.product Outlet.second_item)
        (product_table Outlet.db)
  /\ (5 <? Product.price (CartItem.product Outlet.second_item)) = true.
Proof.
  assert (Hi : Cart.__init__ Outlet.settings Outlet.db Outlet.session None
               = Ok Outlet.cart) by (vm_compute; reflexivity).
  assert (Hin : In Outlet.second_item (Cart.items Outlet.cart))
    by (simpl; tauto).
  destruct (rebuilt_items_pass_lookups Outlet.settings Outlet.db
              Outlet.session None Outlet.cart Outlet.second_item Hi Hin)
    as [[Ht Hl] _].
  split; [exact Hi |]. split; [exact Hin |]. split; [exact Ht |].
  exact (Hl _ eq_refl).
Defined.

(** X5.  A cart built from the session that [update_session] has just
    written holds no item, whatever the writing cart held: every stored
    plain dict is given up at [item.product_pk]. *)
Theorem written_session_rebuilds_empty (st : Settings) (db : Database)
    (c : Cart.t) (session_key : option string) :
  Cart.resolve_session_key st session_key = Cart.session_key c ->
  exists c',
    Cart.__init__ st db (Cart.session (snd (Cart.update_session c)))
                  session_key = Ok c'
    /\ Cart.items c' = []
    /\ Cart.session c' = Cart.session (snd (Cart.update_session c)).
Proof.
  intros Hk. rewrite update_session_written. simpl.
  exists (Cart.mk [] (Cart.session (written c)) (Cart.session_key c)).
  split; [| split; reflexivity].
  rewrite init_plain; [by rewrite Hk |].
  intros recs. rewrite Hk. simpl. rewrite lookup_insert_eq.
  intros [= <-]. apply cart_serializable_plain.
Qed.

Lemma written_session_rebuilds_empty_witness :
  Cart.resolve_session_key Outlet.settings None
    = Cart.session_key Outlet.cart
  /\ exists c',
       Cart.__init__ Outlet.settings Outlet.db
         (Cart.session (snd (Cart.update_session Outlet.cart))) None = Ok c'
       /\ Cart.items c' = []
       /\ Cart.session c'
          = Cart.session (snd (Cart.update_session Outlet.cart)).
Proof.
  split; [reflexivity |].
  exact (written_session_rebuilds_empty Outlet.settings Outlet.db
           Outlet.cart None eq_refl).
Defined.

(** ** The identity lookup and membership *)

(** X6.  The identity lookup returns the sentinel -1 on a cart without
    items and raises [AttributeError] on every cart that holds an item,
    whatever product and options are asked for; it never returns a position
    and never changes the cart. *)
Theorem index_sentinel_or_attribute_error (product : Product.t)
    (options : list Option.t) (c : Cart.t) :
  Cart.__index__ product options c
    = (match Cart.items c with
       | [] => Ok (-1)
       | _ :: _ => Raise AttributeError
       end, c).
Proof.
  destruct (index_cases product options c) as [[Hi ->] | [Hi ->]].
  - by rewrite Hi.
  - by destruct (Cart.items c).
Qed.

(** X7.  The membership test answers [False] on a cart without items and
    raises [AttributeError] on every other cart: it never answers [True]. *)
Theorem contains_false_or_attribute_error (product : Product.t)
    (options : list Option.t) (c : Cart.t) :
  Cart.__contains__ product options c
    = (match Cart.items c with
       | [] => Ok false
       | _ :: _ => Raise AttributeError
       end, c).
Proof.
  unfold Cart.__contains__, bind.
  destruct (index_cases product options c) as [[Hi ->] | [Hi ->]].
  - by rewrite Hi.
  - by destruct (Cart.items c).
Qed.

(** ** Persisting and clearing *)

Lemma written_again (l1 l2 : list CartItem.t) (c : Cart.t) :
  written (Cart.set_items l2 (written (Cart.set_items l1 c)))
    = written (Cart.set_items l2 c).
Proof.
  destruct c as [l [d m] k].
  unfold written, Cart.set_items, Cart.set_session, Cart.cart_serializable,
    Cart.items. simpl. by rewrite insert_insert_eq.
Qed.

Lemma written_written (c : Cart.t) : written (written c) = written c.
Proof.
  destruct c as [l [d m] k].
  unfold written, Cart.set_session, Cart.cart_serializable, Cart.items.
  simpl. by rewrite insert_insert_eq.
Qed.

(** The four ways a call can end. *)
Lemma run_outcome (o : op) (c : Cart.t) :
  (o = Clear /\ run o c = (Ok tt, written (Cart.set_items [] c)))
  \/ (exists product options quantity z,
        o = Add product options quantity
        /\ int quantity = Ok z /\ 1 <= z /\ Cart.items c = []
        /\ run o c
           = (Ok tt,
              written (Cart.set_items [CartItem.mk product options z] c)))
  \/ (exists product quantity options z,
        o = SetQuantity product quantity options
        /\ int quantity = Ok z /\ 0 <= z /\ Cart.items c = []
        /\ run o c = (Ok tt, c))
  \/ (o <> Clear /\ exists e, run o c = (Raise e, c)).
Proof.
  destruct o as [product options quantity | product | product |
                 | product quantity options]; unfold run.
  - rewrite add_unfold.
    destruct (int quantity) as [q | e] eqn:Eq;
      [| right; right; right; split; [discriminate | by eexists]].
    destruct (q <? 1) eqn:E;
      [right; right; right; split; [discriminate | by eexists] |].
    destruct (Cart.items c) eqn:Ei;
      [| right; right; right; split; [discriminate | by eexists]].
    right; left. exists product, options, quantity, q.
    split; [reflexivity |]. split; [exact Eq |]. split; [lia |].
    split; [reflexivity |].
    unfold Cart.append. unfold Cart.items in Ei. by rewrite Ei.
  - right; right; right. split; [discriminate |].
    rewrite remove_unfold. by eexists.
  - right; right; right. split; [discriminate |].
    rewrite remove_single_unfold. by eexists.
  - left. by rewrite clear_unfold.
  - rewrite set_quantity_unfold.
    destruct (int quantity) as [q | e] eqn:Eq;
      [| right; right; right; split; [discriminate | by eexists]].
    destruct (q <? 0) eqn:E;
      [right; right; right; split; [discriminate | by eexists] |].
    destruct (Cart.items c) eqn:Ei;
      [| right; right; right; split; [discriminate | by eexists]].
    right; right; left. exists product, quantity, options, q.
    split; [reflexivity |]. split; [exact Eq |]. split; [lia |].
    split; reflexivity.
Qed.

(** X8.  [update_session] always returns; afterwards the session holds the
    serialized items under the cart's key and is flagged modified, the items
    are the same, and persisting once more changes nothing. *)
Theorem update_session_persists_once (c : Cart.t) :
  let c' := snd (Cart.update_session c) in
  fst (Cart.update_session c) = Ok tt
  /\ persisted c'
  /\ Cart.items c' = Cart.items c
  /\ Cart.update_session c' = (Ok tt, c').
Proof.
  rewrite update_session_written. simpl.
  split; [reflexivity |]. split; [apply written_persisted |].
  split; [reflexivity |].
  rewrite update_session_written. f_equal. apply written_written.
Qed.

(** X9.  [clear] always returns and leaves a cart without items, with count
    0 and total 0, that reports itself empty; the session holds the empty
    sequence under the cart's key and is flagged modified; clearing again
    changes nothing. *)
Theorem clear_empties_and_repeats (c : Cart.t) :
  let c' := snd (Cart.clear c) in
  fst (Cart.clear c) = Ok tt
  /\ Cart.items c' = []
  /\ Cart.count c' = 0
  /\ Cart.total c' = 0
  /\ Cart.is_empty c' = true
  /\ Session.data (Cart.session c') !! Cart.session_key c' = Some []
  /\ Session.modified (Cart.session c') = true
  /\ Cart.clear c' = (Ok tt, c').
Proof.
  rewrite clear_unfold. simpl. repeat split.
  - apply lookup_insert_eq.
  - rewrite clear_unfold. f_equal. apply written_again.
Qed.

(** X10.  Whatever call came before, and however it ended, [clear] leads to
    the same cart as [clear] without that call. *)
Theorem clear_forgets_previous_call (o : op) (c : Cart.t) :
  Cart.clear (snd (run o c)) = Cart.clear c.
Proof.
  rewrite !clear_unfold. f_equal.
  destruct (run_outcome o c)
    as [[_ ->] | [(p & os & q & z & _ & _ & _ & _ & ->)
       | [(p & q & os & z & _ & _ & _ & _ & ->) | [_ [e ->]]]]]; simpl.
  - apply written_again.
  - apply written_again.
  - reflexivity.
  - reflexivity.
Qed.

(** ** What the mutations do to the cart and to the session *)

(** X11.  However a call to [add], [remove], [remove_single], [clear] or
    [set_quantity] ends, the cart keeps its session key and every other key
    of the session keeps its value. *)
Theorem operations_touch_only_own_key (o : op) (c : Cart.t) (k : string) :
  k <> Cart.session_key c ->
  Cart.session_key (snd (run o c)) = Cart.session_key c
  /\ Session.data (Cart.session (snd (run o c))) !! k
     = Session.data (Cart.session c) !! k.
Proof.
  intros Hk.
  destruct (run_outcome o c)
    as [[_ ->] | [(p & os & q & z & _ & _ & _ & _ & ->)
       | [(p & q & os & z & _ & _ & _ & _ & ->) | [_ [e ->]]]]]; simpl;
    (split; [reflexivity |]); try reflexivity;
    by rewrite lookup_insert_ne.
Qed.

Lemma operations_touch_only_own_key_witness :
  Cart.session_key (snd (run Clear Outlet.cart)) = "CART"
  /\ Session.data (Cart.session (snd (run Clear Outlet.cart))) !! "other"
     = Some [].
Proof.
  destruct (operations_touch_only_own_key Clear Outlet.cart "other")
    as [Hkey Hother]; [discriminate |].
  split; [exact Hkey |]. rewrite Hother. vm_compute. reflexivity.
Defined.

(** X12.  On a cart that holds an item, [clear] is the only mutation that
    can return: [add] and [set_quantity] raise from the quantity or from
    the identity lookup, [remove] and [remove_single] from the unbound
    name. *)
Theorem only_clear_completes_on_nonempty_cart (o : op) (c c' : Cart.t) :
  Cart.items c <> [] ->
  run o c = (Ok tt, c') ->
  o = Clear.
Proof.
  intros Hne H.
  destruct (run_outcome o c)
    as [[Ho _] | [(p & os & q & z & _ & _ & _ & Hi & _)
       | [(p & q & os & z & _ & _ & _ & Hi & _) | [_ [e He]]]]].
  - exact Ho.
  - contradiction.
  - contradiction.
  - rewrite He in H. discriminate.
Qed.

Lemma only_clear_completes_on_nonempty_cart_witness :
  Cart.items Outlet.cart <> []
  /\ run Clear Outlet.cart
     = (Ok tt, written (Cart.set_items [] Outlet.cart))
  /\ Clear = Clear.
Proof.
  assert (Hne : Cart.items Outlet.cart <> []) by discriminate.
  assert (Hrun : run Clear Outlet.cart
                 = (Ok tt, written (Cart.set_items [] Outlet.cart)))
    by reflexivity.
  split; [exact Hne |]. split; [exact Hrun |].
  exact (only_clear_completes_on_nonempty_cart Clear Outlet.cart _ Hne Hrun).
Defined.

(** X13.  A sequence of mutations that all return leaves either the items
    the cart started with or at most one item: no sequence of calls builds
    a cart of two lines. *)
Theorem reachable_cart_gains_at_most_one_line (c0 c : Cart.t) :
  reachable c0 c ->
  Cart.items c = Cart.items c0 \/ (length (Cart.items c) <= 1)%nat.
Proof.
  induction 1 as [| c c' o _ IH Hrun]; [by left |].
  destruct (run_outcome o c)
    as [[_ Hc] | [(p & os & q & z & _ & _ & _ & _ & Hc)
       | [(p & q & os & z & _ & _ & _ & _ & Hc) | [_ [e Hc]]]]];
    rewrite Hc in Hrun; try discriminate;
    injection Hrun as <-.
  - right. simpl. lia.
  - right. simpl. lia.
  - exact IH.
Qed.

Lemma reachable_cart_gains_at_most_one_line_witness :
  reachable Shop.cart0 Shop.cart1
  /\ (Cart.items Shop.cart1 = Cart.items Shop.cart0
      \/ (length (Cart.items Shop.cart1) <= 1)%nat).
Proof.
  assert (Hr : reachable Shop.cart0 Shop.cart1).
  { apply (reach_step _ Shop.cart0 _ (Add Shop.productA [] (PyInt 2)));
      [constructor | vm_compute; reflexivity]. }
  split; [exact Hr |].
  exact (reachable_cart_gains_at_most_one_line Shop.cart0 Shop.cart1 Hr).
Defined.

(** X14.  [add] with a quantity of at least 1 on a cart without items
    returns; the cart then holds the one new item, count is the quantity,
    unique count is 1, total is the price of the product plus the prices of
    the options, times the quantity, and the session is persisted. *)
Theorem first_add_stores_one_line (product : Product.t)
    (options : list Option.t) (quantity : pyval) (z : Z) (c : Cart.t) :
  Cart.items c = [] ->
  int quantity = Ok z ->
  1 <= z ->
  let c' := snd (Cart.add product options quantity c) in
  fst (Cart.add product options quantity c) = Ok tt
  /\ Cart.items c' = [CartItem.mk product options z]
  /\ Cart.count c' = z
  /\ Cart.unique_count c' = 1
  /\ Cart.total c'
     = (Product.price product + sum (map Option.price options)) * z
  /\ persisted c'.
Proof.
  intros Hi Hz Hq. rewrite add_unfold, Hz.
  destruct (z <? 1) eqn:E; [lia |]. rewrite Hi. simpl.
  assert (Hitems : Cart.items (written (Cart.append
                      (CartItem.mk product options z) c))
                   = [CartItem.mk product options z]).
  { unfold Cart.items in *. simpl. by rewrite Hi. }
  split; [reflexivity |]. split; [exact Hitems |].
  unfold Cart.count, Cart.total, Cart.unique_count.
  unfold Cart.items in Hitems. unfold Cart.items. rewrite Hitems. simpl.
  split; [lia |]. split; [reflexivity |].
  split; [unfold CartItem.subtotal; simpl; lia | apply written_persisted].
Qed.

Lemma first_add_stores_one_line_witness :
  Cart.items Shop.cart0 = []
  /\ Cart.total (snd (Cart.add Outlet.dear
                        [Outlet.gift_wrap; Outlet.engraving]
                        (PyInt 3) Shop.cart0))
     = (40 + (2 + (5 + 0))) * 3.
Proof.
  split; [reflexivity |].
  destruct (first_add_stores_one_line Outlet.dear
              [Outlet.gift_wrap; Outlet.engraving] (PyInt 3) 3 Shop.cart0
              eq_refl eq_refl ltac:(lia))
    as (_ & _ & _ & _ & Ht & _).
  exact Ht.
Defined.

(** X15.  [set_quantity] with a quantity of at least 0 on a cart without
    items returns and changes nothing: no item appears, nothing is written
    to the session and the modified flag stays as it was. *)
Theorem set_quantity_on_empty_cart_is_silent (product : Product.t)
    (quantity : pyval) (options : list Option.t) (z : Z) (c : Cart.t) :
  Cart.items c = [] ->
  int quantity = Ok z ->
  0 <= z ->
  Cart.set_quantity product quantity options c = (Ok tt, c).
Proof.
  intros Hi Hz Hq. rewrite set_quantity_unfold, Hz.
  destruct (z <? 0) eqn:E; [lia |]. by rewrite Hi.
Qed.

Lemma set_quantity_on_empty_cart_is_silent_witness :
  Cart.items Shop.cart0 = []
  /\ Cart.set_quantity Shop.productA (PyInt 5) [Shop.optionX] Shop.cart0
     = (Ok tt, Shop.cart0).
Proof.
  split; [reflexivity |].
  apply (set_quantity_on_empty_cart_is_silent Shop.productA (PyInt 5)
           [Shop.optionX] 5 Shop.cart0); [reflexivity | reflexivity | lia].
Defined.

(** ** The aggregates *)

Lemma sum_quantities_ge_length (l : list CartItem.t) :
  quantities_positive l ->
  Z.of_nat (length l) <= sum (map CartItem.quantity l).
Proof.
  induction 1 as [| it rest Hq _ IH]; [reflexivity |].
  simpl length. simpl map. unfold sum in *. simpl foldr. lia.
Qed.

(** X16.  On a cart whose items all have a quantity of at least 1, count is
    at least unique count, and the cart reports itself empty exactly when
    count is 0. *)
Theorem count_bounds_unique_count (c : Cart.t) :
  quantities_positive (Cart.items c) ->
  Cart.unique_count c <= Cart.count c
  /\ (Cart.is_empty c = true <-> Cart.count c = 0).
Proof.
  intros Hq. pose proof (sum_quantities_ge_length _ Hq) as Hle.
  unfold Cart.is_empty, Cart.unique_count, Cart.count, Cart.items in *.
  split; [exact Hle |]. rewrite Z.eqb_eq. split; [| lia].
  intros H0. destruct (Cart._items_dict c); [reflexivity | simpl in H0; lia].
Qed.

Lemma count_bounds_unique_count_witness :
  quantities_positive (Cart.items Outlet.cart)
  /\ Cart.unique_count Outlet.cart <= Cart.count Outlet.cart.
Proof.
  assert (Hq : quantities_positive (Cart.items Outlet.cart))
    by (repeat constructor; simpl; lia).
  split; [exact Hq |].
  exact (proj1 (count_bounds_unique_count Outlet.cart Hq)).
Defined.

Lemma sum_nonnegative (l : list Z) : Forall (fun x => 0 <= x) l -> 0 <= sum l.
Proof. unfold sum. induction 1; simpl; lia. Qed.

(** X17.  When no product or option of the cart has a negative price and no
    quantity is negative, every subtotal and the total are not negative. *)
Theorem total_nonnegative (c : Cart.t) :
  Forall item_nonnegative (Cart.items c) ->
  Forall (fun it => 0 <= CartItem.subtotal it) (Cart.items c)
  /\ 0 <= Cart.total c.
Proof.
  intros H.
  assert (Hs : Forall (fun it => 0 <= CartItem.subtotal it) (Cart.items c)).
  { eapply Forall_impl; [exact H |].
    intros it (Hp & Ho & Hq). unfold CartItem.subtotal.
    apply Z.mul_nonneg_nonneg; [| exact Hq].
    apply Z.add_nonneg_nonneg; [exact Hp |].
    apply sum_nonnegative. by apply Forall_fmap. }
  split; [exact Hs |].
  unfold Cart.total. apply sum_nonnegative. by apply Forall_fmap.
Qed.

Lemma total_nonnegative_witness :
  Forall item_nonnegative (Cart.items Outlet.cart)
  /\ 0 <= Cart.total Outlet.cart.
Proof.
  assert (H : Forall item_nonnegative (Cart.items Outlet.cart)).
  { repeat constructor; simpl; lia. }
  split; [exact H |].
  exact (proj2 (total_nonnegative Outlet.cart H)).
Defined.
